(** * ESC/POS image snippets: column format and raster format

    A shallow embedding of [image-ports/columnFormat.py] and
    [image-ports/rasterFormat.py], and the properties of their integer
    encoder, strip slicing, bit packing and command framing. *)

From Stdlib Require Import ZArith List Lia Bool.
Import ListNotations.
Open Scope Z_scope.

(** ** Python values and control flow *)

(** The exceptions the scripts can meet: [ValueError] (raised by
    [_int_low_high] and by a shift with a negative count) and
    [struct.error] (raised by [six.int2byte] outside 0..255). *)
Inductive exn : Type :=
| ValueError
| StructError.

(** Outcome of running a piece of Python: a value, an exception, or a loop
    that does not stop within the steps allotted to it. *)
Inductive result (A : Type) : Type :=
| Ok (a : A)
| Raise (e : exn)
| Diverge.

Arguments Ok {A} a.
Arguments Raise {A} e.
Arguments Diverge {A}.

Definition bind {A B : Type} (m : result A) (k : A -> result B) : result B :=
  match m with
  | Ok a => k a
  | Raise e => Raise e
  | Diverge => Diverge
  end.

Notation "x <- m ;; k" := (bind m (fun x => k))
  (at level 61, m at next level, right associativity).

(** A byte string ([bytes]) is the list of its bytes, each an integer in
    0..255. *)
Abbreviation bytes := (list Z) (only parsing).

(** Python's [a << b] on integers: a negative count raises [ValueError],
    however large.  For a count so large that the result cannot be held,
    Python raises [OverflowError] or [MemoryError] instead of returning;
    where that sets in depends on the machine, and this definition leaves
    it out.  The properties below that rest on it are stated for counts of
    at most 65535. *)
Definition py_lshift (a b : Z) : result Z :=
  if b <? 0 then Raise ValueError else Ok (Z.shiftl a b).

(** [six.int2byte]: [struct.Struct(">B").pack], one byte for 0..255 and
    [struct.error] otherwise. *)
Definition int2byte (n : Z) : result bytes :=
  if (0 <=? n) && (n <=? 255) then Ok [n] else Raise StructError.

(** ** The image library

    The scripts hand every pixel operation to PIL, which is not part of the
    repository.  An image is modelled in single-channel form (modes "1" and
    "L"): its size and its rows of pixel values, 0 for black and 255 for
    white.  An image loaded from a file has at least one row and one
    column; the specification treats an image without pixels as an error
    raised before the encoders run, which this model does not
    represent. *)

Module PIL.

Record Image : Type := mkImage { size : Z * Z; rows : list (list Z) }.

(** The indices [0; 1; ...; n-1] of a Python [range(n)]. *)
Definition zrange (n : Z) : list Z := map Z.of_nat (seq 0 (Z.to_nat n)).

(** The pixel at column [x] and row [y]; outside the image it reads 0, as
    the library's transforms fill what lies beyond the source with 0. *)
Definition getpixel0 (im : Image) (x y : Z) : Z :=
  let '(w, h) := size im in
  if (0 <=? x) && (x <? w) && (0 <=? y) && (y <? h)
  then nth (Z.to_nat x) (nth (Z.to_nat y) (rows im) []) 0
  else 0.

(** An image is well formed when its rows agree with its size and every
    pixel is a byte. *)
Definition well_formed (im : Image) : Prop :=
  let '(w, h) := size im in
  0 <= w /\ 0 <= h /\
  length (rows im) = Z.to_nat h /\
  Forall (fun r => length r = Z.to_nat w /\ Forall (fun p => 0 <= p <= 255) r)
         (rows im).

Definition map_pixels (f : Z -> Z) (im : Image) : Image :=
  mkImage (size im) (map (map f) (rows im)).

(** Modelled from the spec: [Image.convert("L")], step 1 of the monochrome
    pipeline (reduce to single-channel luminance).  On an image that is
    already single-channel the pixel values stay as they are. *)
Definition convert_L (im : Image) : Image := im.

(** Modelled from the spec: [ImageOps.invert], step 2 of the monochrome
    pipeline (invert polarity): every 8-bit pixel [p] becomes [255 - p]. *)
Definition invert (im : Image) : Image := map_pixels (fun p => 255 - p) im.

(** Modelled from the spec: [Image.convert("1")], step 3 of the monochrome
    pipeline (threshold to a strict 1-bit bitmap, with a fixed threshold).
    The threshold chosen is 127: a pixel above it becomes 255, any other 0.
    Pixels that are already 0 or 255 are unchanged. *)
Definition convert_1 (im : Image) : Image :=
  map_pixels (fun p => if 127 <? p then 255 else 0) im.

Inductive method : Type :=
| FLIP_LEFT_RIGHT
| ROTATE_270.

(** Modelled from the spec: [Image.transpose], the rotation by 270 degrees
    and the horizontal mirror of column-format step 1.  [ROTATE_270] swaps
    the two dimensions and sends the source pixel [(x, y)] to
    [(h - 1 - y, x)]; [FLIP_LEFT_RIGHT] sends [(x, y)] to [(w - 1 - x, y)]. *)
Definition transpose (m : method) (im : Image) : Image :=
  let '(w, h) := size im in
  match m with
  | FLIP_LEFT_RIGHT =>
      mkImage (w, h)
        (map (fun y => map (fun x => getpixel0 im (w - 1 - x) y) (zrange w))
             (zrange h))
  | ROTATE_270 =>
      mkImage (h, w)
        (map (fun y => map (fun x => getpixel0 im y (h - 1 - x)) (zrange h))
             (zrange w))
  end.

(** Modelled from the spec: [Image.transform(size, Image.EXTENT, box)], the
    strip extraction of column-format step 3.  The output pixel [(x, y)] is
    the source pixel under the centre of its cell of the box, and 0 (blank)
    where that falls outside the source image. *)
Definition transform_EXTENT (sz : Z * Z) (box : Z * Z * Z * Z) (im : Image)
  : Image :=
  let '(w', h') := sz in
  let '(x0, y0, x1, y1) := box in
  mkImage (w', h')
    (map (fun y =>
            map (fun x =>
                   getpixel0 im (x0 + ((2 * x + 1) * (x1 - x0)) / (2 * w'))
                                (y0 + ((2 * y + 1) * (y1 - y0)) / (2 * h')))
                (zrange w'))
         (zrange h')).

(** The bit of a pixel in a packed 1-bit image: 1 for any nonzero pixel. *)
Definition bit_of (p : Z) : Z := if p =? 0 then 0 else 1.

(** Byte [b] of row [y] of the packed image: the eight pixels
    [8b .. 8b+7], the leftmost in the most significant bit; pixels beyond
    the width read 0. *)
Definition pack_byte (im : Image) (y b : Z) : Z :=
  fold_left (fun acc i => 2 * acc + bit_of (getpixel0 im (8 * b + i) y))
            (zrange 8) 0.

(** Modelled from the spec: [Image.tobytes] on a mode "1" image, step 1 of
    the raster algorithm: row-major, each row packed 8 pixels per byte,
    most significant bit first, the last byte of a row padded with zero
    bits on the low-order side. *)
Definition tobytes (im : Image) : bytes :=
  let '(w, h) := size im in
  concat (map (fun y => map (fun b => pack_byte im y b) (zrange ((w + 7) / 8)))
              (zrange h)).

End PIL.

Import PIL.

(** An output file opened in binary mode: the record of the byte strings
    written to it, in order. *)
Abbreviation file := (list (list Z)) (only parsing).

Definition fp_write (fp : file) (b : bytes) : file := fp ++ [b].

(** The byte stream a file holds. *)
Definition contents (fp : file) : bytes := concat fp.

(** ** columnFormat.py *)

Module ColumnFormat.

(** The [while left < width_pixels] loop of [_to_column_format]; [fuel]
    bounds the number of iterations. *)
Fixpoint column_loop (fuel : nat) (im : Image)
    (line_height width_pixels height_pixels top left : Z)
    (blobs : list bytes) : result (list bytes) :=
  if left <? width_pixels then
    match fuel with
    | O => Diverge
    | S fuel' =>
        let remaining_pixels := width_pixels - left in
        let box := (left, top, left + line_height, top + height_pixels) in
        let slice := transform_EXTENT (line_height, height_pixels) box im in
        let bytes := tobytes slice in
        column_loop fuel' im line_height width_pixels height_pixels top
                    (left + line_height) (blobs ++ [bytes])
    end
  else Ok blobs.

(** [_to_column_format(im, line_height)].  With [line_height >= 1] the loop
    ends within [width_pixels] iterations; with [line_height <= 0] and a
    nonempty image [left] never reaches [width_pixels]. *)
Definition _to_column_format (im : Image) (line_height : Z)
  : result (list bytes) :=
  let '(width_pixels, height_pixels) := size im in
  let top := 0 in
  let left := 0 in
  let blobs := [] in
  column_loop (Z.to_nat width_pixels) im line_height width_pixels
              height_pixels top left blobs.

(** The body of [for _ in range(0, out_bytes)], run [n] times. *)
Fixpoint int_low_high_loop (n : nat) (inp_number : Z) (outp : bytes)
  : result bytes :=
  match n with
  | O => Ok outp
  | S n' =>
      b <- int2byte (inp_number mod 256) ;;
      int_low_high_loop n' (inp_number / 256) (outp ++ b)
  end.

(** [_int_low_high(inp_number, out_bytes)].  In
    [256 << (out_bytes * 8) - 1] the subtraction binds tighter than the
    shift, so the count is [out_bytes * 8 - 1]. *)
Definition _int_low_high (inp_number out_bytes : Z) : result bytes :=
  max_input <- py_lshift 256 (out_bytes * 8 - 1) ;;
  if negb ((1 <=? out_bytes) && (out_bytes <=? 4)) then Raise ValueError
  else if negb ((0 <=? inp_number) && (inp_number <=? max_input))
  then Raise ValueError
  else int_low_high_loop (Z.to_nat out_bytes) inp_number [].

Definition ESC : bytes := [27].

(** The [for blob in blobs] loop writing one command per blob. *)
Definition write_blobs (header : bytes) (blobs : list bytes) (fp : file)
  : file :=
  fold_left (fun fp blob => fp_write fp (header ++ blob ++ [10])) blobs fp.

(** The script's main block, from the loaded image [im] to the file
    written on standard output.  The two density settings are the
    variables of its [# Configure] part. *)
Definition main (high_density_horizontal high_density_vertical : bool)
    (im : Image) : result file :=
  let im := convert_L im in
  let im := invert im in
  let im := convert_1 im in
  let im := transpose FLIP_LEFT_RIGHT (transpose ROTATE_270 im) in
  let line_height := if high_density_vertical then 3 else 1 in
  blobs <- _to_column_format im (line_height * 8) ;;
  let '(height_pixels, width_pixels) := size im in
  let density_byte :=
    (if high_density_horizontal then 1 else 0)
    + (if high_density_vertical then 32 else 0) in
  d <- int2byte density_byte ;;
  w <- _int_low_high width_pixels 2 ;;
  let header := ESC ++ [42] ++ d ++ w in
  let fp := [] in
  d16 <- int2byte 16 ;;
  let fp := fp_write fp (ESC ++ [51] ++ d16) in
  let fp := write_blobs header blobs fp in
  let fp := fp_write fp (ESC ++ [50]) in
  Ok fp.

End ColumnFormat.

(** ** rasterFormat.py *)

Module RasterFormat.

(** [_to_raster_format(im)]. *)
Definition _to_raster_format (im : Image) : bytes :=
  let im := convert_L im in
  let im := invert im in
  let im := convert_1 im in
  tobytes im.

(** The body of [for _ in range(0, out_bytes)], run [n] times. *)
Fixpoint int_low_high_loop (n : nat) (inp_number : Z) (outp : bytes)
  : result bytes :=
  match n with
  | O => Ok outp
  | S n' =>
      b <- int2byte (inp_number mod 256) ;;
      int_low_high_loop n' (inp_number / 256) (outp ++ b)
  end.

(** [_int_low_high(inp_number, out_bytes)], the same text as in
    columnFormat.py. *)
Definition _int_low_high (inp_number out_bytes : Z) : result bytes :=
  max_input <- py_lshift 256 (out_bytes * 8 - 1) ;;
  if negb ((1 <=? out_bytes) && (out_bytes <=? 4)) then Raise ValueError
  else if negb ((0 <=? inp_number) && (inp_number <=? max_input))
  then Raise ValueError
  else int_low_high_loop (Z.to_nat out_bytes) inp_number [].

Definition GS : bytes := [29].

(** [(int)((width + 7) / 8)]: the quotient by 8 is exact in binary floating
    point for every image width, and [int] drops its fraction, so the value
    is the floor of the quotient (the integer quotient under Python 2). *)
Definition width_bytes_of (width : Z) : Z := (width + 7) / 8.

(** The script's main block, from the loaded image [im] to the file
    written on standard output. *)
Definition main (high_density_horizontal high_density_vertical : bool)
    (im : Image) : result file :=
  let '(width, height_pixels) := size im in
  let width_bytes := width_bytes_of width in
  let density_byte :=
    (if high_density_vertical then 0 else 1)
    + (if high_density_horizontal then 0 else 2) in
  d <- int2byte density_byte ;;
  wb <- _int_low_high width_bytes 2 ;;
  hp <- _int_low_high height_pixels 2 ;;
  let header := GS ++ [118; 48] ++ d ++ wb ++ hp in
  let fp := [] in
  let fp := fp_write fp (header ++ _to_raster_format im) in
  Ok fp.

End RasterFormat.

(** ** Reading the encodings back *)

(** The integer a little-endian byte string stands for. *)
Fixpoint decodeLE (bs : bytes) : Z :=
  match bs with
  | [] => 0
  | b :: bs' => b + 256 * decodeLE bs'
  end.

(** The [n] little-endian bytes of [v], least significant first. *)
Fixpoint encodeLE (n : nat) (v : Z) : bytes :=
  match n with
  | O => []
  | S n' => v mod 256 :: encodeLE n' (v / 256)
  end.

(** A bitmap as the printer sees it: rows of cells, [true] for ink. *)
Definition Bitmap : Type := list (list bool).

(** The bitmap of a 1-bit image: ink wherever the pixel is not 0. *)
Definition bitmap_of (im : Image) : Bitmap :=
  map (map (fun p => negb (p =? 0))) (rows im).


(** The monochrome bitmap both encoders pack: the image after grayscale
    reduction, inversion and thresholding. *)
Definition monochrome (im : Image) : Image :=
  convert_1 (invert (convert_L im)).

(** The shape part of well-formedness: the rows agree with the size. *)
Definition shaped (im : Image) : Prop :=
  0 <= fst (size im) /\ 0 <= snd (size im) /\
  length (rows im) = Z.to_nat (snd (size im)) /\
  Forall (fun r => length r = Z.to_nat (fst (size im))) (rows im).

(** The bitmap the column encoder slices: the monochrome bitmap rotated by
    270 degrees and mirrored. *)
Definition rotated_bitmap (im : Image) : Image :=
  transpose FLIP_LEFT_RIGHT (transpose ROTATE_270 (monochrome im)).

(** The flag byte of a column-format command. *)
Definition column_flag (high_density_horizontal high_density_vertical : bool)
  : Z :=
  (if high_density_horizontal then 1 else 0)
  + (if high_density_vertical then 32 else 0).

(** The flag byte of the raster-format command. *)
Definition raster_flag (high_density_horizontal high_density_vertical : bool)
  : Z :=
  (if high_density_vertical then 0 else 1)
  + (if high_density_horizontal then 0 else 2).

(** The number of strips [strip_width] wide that cover [width] columns. *)
Definition strip_count (width strip_width : Z) : Z :=
  (width + strip_width - 1) / strip_width.

(** Strip [k] of an image, cut list-wise: from every row the [strip_width]
    pixels that start at column [k * strip_width], with blank (0) pixels
    appended on the right where the row ends early. *)
Definition strip_of (im : Image) (strip_width k : Z) : Image :=
  mkImage (strip_width, snd (size im))
    (map (fun r => firstn (Z.to_nat strip_width)
                     (skipn (Z.to_nat (k * strip_width)) r
                      ++ repeat 0 (Z.to_nat strip_width)))
         (rows im)).

(** The writes of a column-format run between the first (set line
    spacing) and the last (reset line spacing): one per strip. *)
Definition strip_commands (fp : file) : list bytes := removelast (tl fp).

(** The 2-byte width field of a strip command, read as a little-endian
    integer: bytes 3 and 4, after [ESC], ['*'] and the flag byte. *)
Definition width_field (cmd : bytes) : Z := decodeLE (firstn 2 (skipn 3 cmd)).

(** The 16 by 8 all-black image of the two scenarios. *)
Definition black_16x8 : Image :=
  mkImage (16, 8) (repeat (repeat 0 16%nat) 8%nat).

(** A 3 by 2 image with one black pixel at each end of a diagonal. *)
Definition sample_3x2 : Image :=
  mkImage (3, 2) [[0; 255; 255]; [255; 255; 0]].




(** Images at the edges of what the header fields can carry: one row 65537
    pixels wide, 65536 rows one pixel wide, 8388609 rows of 8 pixels, and
    one row 8388609 pixels wide. *)
Definition wide_image : Image :=
  mkImage (65537, 1) [repeat 255 (Z.to_nat 65537)].

Definition tall_image : Image :=
  mkImage (1, 65536) (repeat [255] (Z.to_nat 65536)).

Definition too_tall_image : Image :=
  mkImage (8, 8388609) (repeat (repeat 255 8%nat) (Z.to_nat 8388609)).

Definition too_wide_image : Image :=
  mkImage (8388609, 1) [repeat 255 (Z.to_nat 8388609)].

(** * Properties *)

(** Settle the integer comparisons of the goal that linear arithmetic
    decides. *)
Ltac decide_tests :=
  repeat match goal with
         | |- context [?a <=? ?b] =>
             first [ replace (a <=? b) with true
                       by (symmetry; apply Z.leb_le; lia)
                   | replace (a <=? b) with false
                       by (symmetry; apply Z.leb_gt; lia) ]
         | |- context [?a <? ?b] =>
             first [ replace (a <? b) with true
                       by (symmetry; apply Z.ltb_lt; lia)
                   | replace (a <? b) with false
                       by (symmetry; apply Z.ltb_ge; lia) ]
         end.

(** ** The integer encoder *)

Lemma int2byte_mod (v : Z) : int2byte (v mod 256) = Ok [v mod 256].
Proof.
  unfold int2byte.
  pose proof (Z.mod_pos_bound v 256 ltac:(lia)) as Hb.
  destruct (0 <=? v mod 256) eqn:E1; destruct (v mod 256 <=? 255) eqn:E2;
    simpl; try reflexivity; lia.
Qed.

Lemma column_loop_encodeLE (n : nat) : forall v acc,
  ColumnFormat.int_low_high_loop n v acc = Ok (acc ++ encodeLE n v).
Proof.
  induction n as [|n IH]; intros v acc; simpl.
  - now rewrite app_nil_r.
  - rewrite int2byte_mod. simpl. rewrite IH, <- app_assoc. reflexivity.
Qed.

Lemma raster_loop_same (n : nat) : forall v acc,
  RasterFormat.int_low_high_loop n v acc
  = ColumnFormat.int_low_high_loop n v acc.
Proof.
  induction n as [|n IH]; intros v acc; simpl; [reflexivity|].
  destruct (int2byte (v mod 256)); simpl; auto.
Qed.

Lemma raster_int_low_high_same (v n : Z) :
  RasterFormat._int_low_high v n = ColumnFormat._int_low_high v n.
Proof.
  unfold RasterFormat._int_low_high, ColumnFormat._int_low_high.
  now rewrite raster_loop_same.
Qed.

Lemma shiftl_256 (n : Z) :
  1 <= n -> Z.shiftl 256 (n * 8 - 1) = 2 ^ (8 * n + 7).
Proof.
  intros Hn. rewrite Z.shiftl_mul_pow2 by lia.
  change 256 with (2 ^ 8). rewrite <- Z.pow_add_r by lia.
  f_equal. lia.
Qed.

(** What the function does on every input: it raises [ValueError] when
    the byte count is not 1..4 or the number is outside
    [0 .. 256 << (8 * out_bytes - 1)], and otherwise gives the low bytes. *)
Lemma int_low_high_cases (v n : Z) :
  ColumnFormat._int_low_high v n =
  if (1 <=? n) && (n <=? 4) && (0 <=? v) && (v <=? 2 ^ (8 * n + 7))
  then Ok (encodeLE (Z.to_nat n) v)
  else Raise ValueError.
Proof.
  unfold ColumnFormat._int_low_high, py_lshift.
  destruct (n * 8 - 1 <? 0) eqn:Es; cbn [bind].
  - destruct (1 <=? n) eqn:E1; cbn [andb negb]; [lia | reflexivity].
  - destruct (1 <=? n) eqn:E1; cbn [andb negb]; [|reflexivity].
    destruct (n <=? 4) eqn:E2; cbn [andb negb]; [|reflexivity].
    rewrite shiftl_256 by lia.
    destruct (0 <=? v) eqn:E3; cbn [andb negb]; [|reflexivity].
    destruct (v <=? 2 ^ (8 * n + 7)) eqn:E4; cbn [andb negb]; [|reflexivity].
    now rewrite column_loop_encodeLE.
Qed.

Lemma length_encodeLE (n : nat) : forall v, length (encodeLE n v) = n.
Proof. induction n; intros; simpl; auto. Qed.

Lemma nth_encodeLE (n : nat) : forall (i : nat) v,
  (i < n)%nat -> 0 <= v ->
  nth i (encodeLE n v) 0 = (v / 256 ^ Z.of_nat i) mod 256.
Proof.
  induction n as [|n IH]; intros i v Hi Hv; [lia|].
  destruct i as [|i]; simpl encodeLE; simpl nth.
  - now rewrite Z.div_1_r.
  - rewrite IH by (try lia; apply Z.div_pos; lia).
    rewrite Z.div_div by lia.
    rewrite Nat2Z.inj_succ, Z.pow_succ_r by lia. reflexivity.
Qed.

Lemma decodeLE_encodeLE (n : nat) : forall v,
  0 <= v -> decodeLE (encodeLE n v) = v mod 256 ^ Z.of_nat n.
Proof.
  induction n as [|n IH]; intros v Hv.
  - simpl. now rewrite Z.mod_1_r.
  - cbn [encodeLE decodeLE]. rewrite IH by (apply Z.div_pos; lia).
    rewrite Nat2Z.inj_succ, Z.pow_succ_r by lia.
    rewrite Z.rem_mul_r by lia. reflexivity.
Qed.

Lemma encodeLE_mod (n : nat) : forall v,
  0 <= v -> encodeLE n (v mod 256 ^ Z.of_nat n) = encodeLE n v.
Proof.
  induction n as [|n IH]; intros v Hv; [reflexivity|].
  cbn [encodeLE].
  rewrite Nat2Z.inj_succ, Z.pow_succ_r by lia.
  rewrite Z.rem_mul_r by lia.
  assert (H0 : 0 <= v mod 256 < 256) by (apply Z.mod_pos_bound; lia).
  assert (Hq : (v mod 256 + 256 * ((v / 256) mod 256 ^ Z.of_nat n)) / 256
               = (v / 256) mod 256 ^ Z.of_nat n).
  { rewrite Z.mul_comm, Z.div_add by lia.
    rewrite Z.div_small by lia. lia. }
  assert (Hr : (v mod 256 + 256 * ((v / 256) mod 256 ^ Z.of_nat n)) mod 256
               = v mod 256).
  { rewrite Z.mul_comm, Z.mod_add by lia. now rewrite Z.mod_mod by lia. }
  rewrite Hq, Hr, IH by (apply Z.div_pos; lia). reflexivity.
Qed.

Lemma pow_256 (n : Z) : 0 <= n -> 256 ^ n = 2 ^ (8 * n).
Proof.
  intros Hn. change 256 with (2 ^ 8). now rewrite <- Z.pow_mul_r by lia.
Qed.

(** C1 (the encoder does not reject every number too large for its byte
    count): asked for one byte, [_int_low_high] accepts 256, which is
    above [2^8 - 1], and returns the single byte 0 with no error, in both
    scripts. *)
Theorem C1_int_low_high_accepts_256_in_one_byte :
  256 > 2 ^ (8 * 1) - 1 /\
  ColumnFormat._int_low_high 256 1 = Ok [0] /\
  RasterFormat._int_low_high 256 1 = Ok [0].
Proof. repeat split. Qed.

(** C2 (little-endian round trip): for a byte count in 1..4 and a number
    in [0 .. 2^(8 * byteCount) - 1], [_int_low_high] (in either script)
    returns exactly [byteCount] bytes, byte [i] being digit [i] of the
    number in base 256 (least significant first), and reading them back as
    a little-endian integer gives the number. *)
Theorem C2_int_low_high_little_endian_roundtrip (byteCount value : Z)
    (Hcount : 1 <= byteCount <= 4)
    (Hvalue : 0 <= value < 2 ^ (8 * byteCount)) :
  exists bs : bytes,
    ColumnFormat._int_low_high value byteCount = Ok bs /\
    RasterFormat._int_low_high value byteCount = Ok bs /\
    Z.of_nat (length bs) = byteCount /\
    (forall i, 0 <= i < byteCount ->
               nth (Z.to_nat i) bs 0 = (value / 256 ^ i) mod 256) /\
    decodeLE bs = value.
Proof.
  exists (encodeLE (Z.to_nat byteCount) value).
  assert (Hlt : 2 ^ (8 * byteCount) < 2 ^ (8 * byteCount + 7))
    by (apply Z.pow_lt_mono_r; lia).
  assert (Hrun : ColumnFormat._int_low_high value byteCount
                 = Ok (encodeLE (Z.to_nat byteCount) value)).
  { rewrite int_low_high_cases. decide_tests. reflexivity. }
  split; [exact Hrun|].
  split; [now rewrite raster_int_low_high_same|].
  split; [rewrite length_encodeLE; lia|].
  split.
  - intros i Hi. rewrite nth_encodeLE by lia.
    now rewrite Z2Nat.id by lia.
  - rewrite decodeLE_encodeLE by lia.
    rewrite Z2Nat.id, pow_256 by lia.
    apply Z.mod_small. lia.
Qed.

Lemma C2_int_low_high_little_endian_roundtrip_witness :
  exists bs : bytes,
    ColumnFormat._int_low_high 4660 2 = Ok bs /\
    RasterFormat._int_low_high 4660 2 = Ok bs /\
    Z.of_nat (length bs) = 2 /\
    (forall i, 0 <= i < 2 -> nth (Z.to_nat i) bs 0 = (4660 / 256 ^ i) mod 256) /\
    decodeLE bs = 4660.
Proof.
  apply (C2_int_low_high_little_endian_roundtrip 2 4660).
  - lia.
  - split; [lia | reflexivity].
Defined.

(** C9 (silent wrap between the true range and the computed bound): for a
    byte count [n] in 1..4 and a number [v] with
    [2^(8n) <= v <= 256 << (8n - 1)], a bound equal to [2^(8n+7)],
    [_int_low_high] (in either script) raises nothing and returns the [n]
    little-endian bytes of [v mod 2^(8n)], which read back as
    [v mod 2^(8n)] and not as [v]. *)
Theorem C9_int_low_high_wraps_above_range (n v : Z)
    (Hn : 1 <= n <= 4)
    (Hv : 2 ^ (8 * n) <= v <= Z.shiftl 256 (8 * n - 1)) :
  Z.shiftl 256 (8 * n - 1) = 2 ^ (8 * n + 7) /\
  exists bs : bytes,
    ColumnFormat._int_low_high v n = Ok bs /\
    RasterFormat._int_low_high v n = Ok bs /\
    bs = encodeLE (Z.to_nat n) (v mod 2 ^ (8 * n)) /\
    Z.of_nat (length bs) = n /\
    decodeLE bs = v mod 2 ^ (8 * n) /\
    decodeLE bs <> v.
Proof.
  assert (Hs : Z.shiftl 256 (8 * n - 1) = 2 ^ (8 * n + 7)).
  { replace (8 * n - 1) with (n * 8 - 1) by lia. apply shiftl_256. lia. }
  split; [exact Hs|].
  rewrite Hs in Hv.
  assert (Hpos : 0 < 2 ^ (8 * n)) by (apply Z.pow_pos_nonneg; lia).
  exists (encodeLE (Z.to_nat n) v).
  assert (Hrun : ColumnFormat._int_low_high v n
                 = Ok (encodeLE (Z.to_nat n) v)).
  { rewrite int_low_high_cases. decide_tests. reflexivity. }
  assert (Hdec : decodeLE (encodeLE (Z.to_nat n) v) = v mod 2 ^ (8 * n)).
  { rewrite decodeLE_encodeLE by lia. now rewrite Z2Nat.id, pow_256 by lia. }
  split; [exact Hrun|].
  split; [now rewrite raster_int_low_high_same|].
  split.
  { pose proof (encodeLE_mod (Z.to_nat n) v ltac:(lia)) as He.
    rewrite Z2Nat.id, pow_256 in He by lia. now rewrite He. }
  split; [rewrite length_encodeLE; lia|].
  split; [exact Hdec|].
  rewrite Hdec.
  pose proof (Z.mod_pos_bound v (2 ^ (8 * n)) Hpos). lia.
Qed.

Lemma C9_int_low_high_wraps_above_range_witness :
  Z.shiftl 256 (8 * 1 - 1) = 2 ^ (8 * 1 + 7) /\
  exists bs : bytes,
    ColumnFormat._int_low_high 300 1 = Ok bs /\
    RasterFormat._int_low_high 300 1 = Ok bs /\
    bs = encodeLE (Z.to_nat 1) (300 mod 2 ^ (8 * 1)) /\
    Z.of_nat (length bs) = 1 /\
    decodeLE bs = 300 mod 2 ^ (8 * 1) /\
    decodeLE bs <> 300.
Proof.
  apply (C9_int_low_high_wraps_above_range 1 300).
  - lia.
  - vm_compute. split; intros H; discriminate H.
Defined.


(** ** Index ranges *)

Lemma zrange_nonpos (n : Z) : n <= 0 -> zrange n = [].
Proof.
  intros Hn. unfold zrange. now replace (Z.to_nat n) with 0%nat by lia.
Qed.

Lemma zrange_cons (m : Z) :
  0 <= m -> zrange (1 + m) = 0 :: map (fun k => k + 1) (zrange m).
Proof.
  intros Hm. unfold zrange.
  replace (Z.to_nat (1 + m)) with (S (Z.to_nat m)) by lia.
  cbn [seq map]. f_equal.
  rewrite <- seq_shift, !map_map.
  apply map_ext. intros a. lia.
Qed.

Lemma length_zrange (n : Z) : length (zrange n) = Z.to_nat n.
Proof. unfold zrange. now rewrite length_map, length_seq. Qed.

Lemma In_zrange (n k : Z) : In k (zrange n) <-> 0 <= k < n.
Proof.
  unfold zrange. rewrite in_map_iff. split.
  - intros [i [<- Hi]]. apply in_seq in Hi. lia.
  - intros Hk. exists (Z.to_nat k). split; [lia|]. apply in_seq. lia.
Qed.

Lemma nth_map_in {A B : Type} (f : A -> B) (l : list A) (i : nat) (d : B)
    (d' : A) :
  (i < length l)%nat -> nth i (map f l) d = f (nth i l d').
Proof.
  intros Hi. rewrite (nth_indep _ d (f d')) by (now rewrite length_map).
  apply map_nth.
Qed.

Lemma nth_zrange (n : Z) (i : nat) (d : Z) :
  (i < Z.to_nat n)%nat -> nth i (zrange n) d = Z.of_nat i.
Proof.
  intros Hi. unfold zrange.
  rewrite (nth_indep _ d (Z.of_nat 0)) by (now rewrite length_map, length_seq).
  rewrite map_nth, seq_nth by exact Hi. reflexivity.
Qed.


(** ** The column-format run *)

(** The loop of [_to_column_format] ends whenever the strip width is
    positive and the fuel covers the columns left, and appends the strips
    at [left], [left + line_height], ... in that order. *)
Lemma column_loop_spec (im : Image) (lh W H top : Z) (fuel : nat) :
  0 < lh ->
  forall left blobs,
    W - left <= Z.of_nat fuel ->
    ColumnFormat.column_loop fuel im lh W H top left blobs
    = Ok (blobs ++
          map (fun k => tobytes (transform_EXTENT (lh, H)
                                   (left + k * lh, top,
                                    left + k * lh + lh, top + H) im))
              (zrange (strip_count (W - left) lh))).
Proof.
  intros Hlh. unfold strip_count.
  induction fuel as [|fuel IH]; intros left blobs Hfuel.
  - cbn [ColumnFormat.column_loop].
    replace (left <? W) with false by (symmetry; apply Z.ltb_ge; lia).
    rewrite zrange_nonpos, app_nil_r; [reflexivity|].
    apply Z.lt_succ_r, Z.div_lt_upper_bound; lia.
  - cbn [ColumnFormat.column_loop].
    destruct (left <? W) eqn:E.
    + apply Z.ltb_lt in E.
      rewrite IH by lia.
      replace ((W - left + lh - 1) / lh)
        with (1 + (W - (left + lh) + lh - 1) / lh).
      2:{ replace (W - left + lh - 1) with (W - (left + lh) + lh - 1 + 1 * lh)
            by lia.
          rewrite Z.div_add by lia. lia. }
      rewrite zrange_cons by (apply Z.div_pos; lia).
      rewrite <- app_assoc. cbn [app map]. rewrite map_map.
      replace (left + 0 * lh) with left by lia.
      do 3 f_equal.
      apply map_ext. intros k.
      now replace (left + (k + 1) * lh) with (left + lh + k * lh) by lia.
    + apply Z.ltb_ge in E.
      rewrite zrange_nonpos, app_nil_r; [reflexivity|].
      apply Z.lt_succ_r, Z.div_lt_upper_bound; lia.
Qed.

Lemma to_column_format_spec (im : Image) (lh : Z) :
  0 < lh ->
  ColumnFormat._to_column_format im lh
  = Ok (map (fun k => tobytes (transform_EXTENT (lh, snd (size im))
                                 (k * lh, 0, k * lh + lh, snd (size im)) im))
            (zrange (strip_count (fst (size im)) lh))).
Proof.
  intros Hlh. unfold ColumnFormat._to_column_format.
  destruct (size im) as [W H]. cbn [fst snd].
  rewrite column_loop_spec by lia.
  cbn [app]. rewrite Z.sub_0_r. reflexivity.
Qed.

Lemma write_blobs_spec (header : bytes) (blobs : list bytes) :
  forall fp,
    ColumnFormat.write_blobs header blobs fp
    = fp ++ map (fun blob => header ++ blob ++ [10]) blobs.
Proof.
  unfold ColumnFormat.write_blobs.
  induction blobs as [|b blobs IH]; intros fp; cbn [fold_left map].
  - now rewrite app_nil_r.
  - rewrite IH. unfold fp_write. now rewrite <- app_assoc.
Qed.

Section ColumnRun.

Variables (hdh hdv : bool) (im : Image).

Lemma size_rotated_bitmap :
  size (rotated_bitmap im) = (snd (size im), fst (size im)).
Proof.
  unfold rotated_bitmap, monochrome, convert_1, invert, convert_L,
    map_pixels, transpose.
  cbn [size]. destruct (size im) as [w h]. reflexivity.
Qed.

Lemma column_blobs_exist :
  exists blobs,
    ColumnFormat._to_column_format (rotated_bitmap im)
      ((if hdv then 3 else 1) * 8) = Ok blobs.
Proof.
  eexists. apply to_column_format_spec. destruct hdv; lia.
Qed.

(** The whole run in one equation: the blobs are cut first, the header is
    built once, and the three kinds of writes follow; a width outside
    [0 .. 2^23] raises [ValueError] before anything is written. *)
Lemma column_main_cases (blobs : list bytes) :
  ColumnFormat._to_column_format (rotated_bitmap im)
    ((if hdv then 3 else 1) * 8) = Ok blobs ->
  ColumnFormat.main hdh hdv im =
  if (0 <=? fst (size im)) && (fst (size im) <=? 8388608)
  then Ok ([[27; 51; 16]]
           ++ map (fun blob => ([27; 42; column_flag hdh hdv]
                                ++ encodeLE 2 (fst (size im)))
                               ++ blob ++ [10]) blobs
           ++ [[27; 50]])
  else Raise ValueError.
Proof.
  intros Hblobs. unfold ColumnFormat.main.
  change (transpose FLIP_LEFT_RIGHT
            (transpose ROTATE_270 (convert_1 (invert (convert_L im)))))
    with (rotated_bitmap im).
  rewrite Hblobs. cbn [bind].
  rewrite size_rotated_bitmap.
  rewrite int_low_high_cases.
  change (2 ^ (8 * 2 + 7)) with 8388608.
  change (Z.to_nat 2) with 2%nat.
  assert (Hd : int2byte ((if hdh then 1 else 0) + (if hdv then 32 else 0))
               = Ok [column_flag hdh hdv])
    by (destruct hdh, hdv; reflexivity).
  rewrite Hd. cbn [bind].
  change ((1 <=? 2) && (2 <=? 4)) with true. cbn [andb].
  destruct ((0 <=? fst (size im)) && (fst (size im) <=? 8388608));
    cbn [bind]; [|reflexivity].
  change (int2byte 16) with (Ok [16]). cbn [bind].
  rewrite write_blobs_spec. unfold fp_write, ColumnFormat.ESC.
  cbn [app]. reflexivity.
Qed.

Lemma in_range_true (w : Z) :
  0 <= w <= 8388608 -> (0 <=? w) && (w <=? 8388608) = true.
Proof. intros Hw. decide_tests. reflexivity. Qed.

(** A width the encoder refuses stops the run with [ValueError] before the
    first write. *)
Lemma column_main_rejects :
  ~ 0 <= fst (size im) <= 8388608 ->
  ColumnFormat.main hdh hdv im = Raise ValueError.
Proof.
  intros Hw. destruct column_blobs_exist as [blobs Hb].
  rewrite (column_main_cases blobs Hb).
  destruct ((0 <=? fst (size im)) && (fst (size im) <=? 8388608)) eqn:E;
    [|reflexivity].
  apply andb_true_iff in E. destruct E as [E1 E2].
  apply Z.leb_le in E1, E2. lia.
Qed.

End ColumnRun.




(** C10 (one header for all strips): in a run that completes, the file
    receives one write per blob between the first and the last write, and
    write [i + 1] is the same five bytes [0x1B '*' flag lo hi] followed by
    blob [i] and [0x0A]; the five bytes depend on the two density settings
    and the image width only, not on [i] nor on the pixels. *)
Theorem C10_strip_header_is_constant (hdh hdv : bool) (im : Image)
    (Hw : 0 <= fst (size im) <= 8388608) :
  exists (blobs : list bytes) (fp : file),
    ColumnFormat._to_column_format (rotated_bitmap im)
      ((if hdv then 3 else 1) * 8) = Ok blobs /\
    ColumnFormat.main hdh hdv im = Ok fp /\
    length fp = (length blobs + 2)%nat /\
    forall i : nat,
      (i < length blobs)%nat ->
      nth (S i) fp []
      = [27; 42; column_flag hdh hdv;
         fst (size im) mod 256; (fst (size im) / 256) mod 256]
        ++ nth i blobs [] ++ [10].
Proof.
  destruct (column_blobs_exist hdv im) as [blobs Hb].
  exists blobs. eexists. split; [exact Hb|].
  split.
  { rewrite (column_main_cases hdh hdv im blobs Hb), in_range_true by exact Hw.
    reflexivity. }
  split.
  { cbn [app length]. rewrite length_app, length_map. cbn [length]. lia. }
  intros i Hi.
  change (nth (S i) ?l []) with
    (nth i (map (fun blob => ([27; 42; column_flag hdh hdv]
                              ++ encodeLE 2 (fst (size im)))
                             ++ blob ++ [10]) blobs ++ [[27; 50]]) []).
  rewrite app_nth1 by (now rewrite length_map).
  rewrite (nth_map_in _ _ _ [] []) by exact Hi.
  reflexivity.
Qed.

Lemma C10_strip_header_is_constant_witness :
  exists (blobs : list bytes) (fp : file),
    ColumnFormat._to_column_format (rotated_bitmap black_16x8)
      ((if true then 3 else 1) * 8) = Ok blobs /\
    ColumnFormat.main true true black_16x8 = Ok fp /\
    length fp = (length blobs + 2)%nat /\
    forall i : nat,
      (i < length blobs)%nat ->
      nth (S i) fp []
      = [27; 42; column_flag true true;
         fst (size black_16x8) mod 256; (fst (size black_16x8) / 256) mod 256]
        ++ nth i blobs [] ++ [10].
Proof.
  apply (C10_strip_header_is_constant true true black_16x8).
  cbn [black_16x8 size fst]. lia.
Defined.

(** C4, as the claim has it, fails: on the 16 by 8 image the width field
    of the strip command reads 16, the width of the image, while its
    height is 8. *)
Lemma C4_width_field_is_not_the_height :
  ~ (forall (hdh hdv : bool) (im : Image) (fp : file) (cmd : bytes),
       ColumnFormat.main hdh hdv im = Ok fp ->
       In cmd (strip_commands fp) ->
       width_field cmd = snd (size im)).
Proof.
  intros H.
  specialize (H true true black_16x8 _ _ eq_refl (or_introl eq_refl)).
  vm_compute in H. discriminate H.
Qed.

(** C4 (amended: the width field is the width of the original image): in
    a run on an image whose width is below 65536, the 2-byte width field of
    every strip command reads, as a little-endian integer, the width of the
    original image (the height of the rotated bitmap). *)
Theorem C4_width_field_is_original_width (hdh hdv : bool) (im : Image)
    (Hw : 0 <= fst (size im) < 65536) :
  exists fp : file,
    ColumnFormat.main hdh hdv im = Ok fp /\
    forall cmd : bytes,
      In cmd (strip_commands fp) -> width_field cmd = fst (size im).
Proof.
  destruct (column_blobs_exist hdv im) as [blobs Hb].
  eexists. split.
  { rewrite (column_main_cases hdh hdv im blobs Hb), in_range_true by lia.
    reflexivity. }
  intros cmd Hin. unfold strip_commands in Hin.
  cbn [app tl] in Hin. rewrite removelast_last in Hin.
  apply in_map_iff in Hin. destruct Hin as [blob [<- _]].
  unfold width_field. cbn [app skipn firstn encodeLE].
  cbn [decodeLE].
  rewrite Z.mul_0_r, Z.add_0_r.
  rewrite (Z.div_mod (fst (size im)) 256) at 3 by lia.
  rewrite (Z.mod_small (fst (size im) / 256) 256); [lia|].
  split; [apply Z.div_pos; lia | apply Z.div_lt_upper_bound; lia].
Qed.

Lemma C4_width_field_is_original_width_witness :
  exists fp : file,
    ColumnFormat.main true true black_16x8 = Ok fp /\
    forall cmd : bytes,
      In cmd (strip_commands fp) -> width_field cmd = fst (size black_16x8).
Proof.
  apply (C4_width_field_is_original_width true true black_16x8).
  cbn [black_16x8 size fst]. lia.
Defined.

(** ** Rows, pixels and packed bytes *)

Lemma length_concat_uniform {A : Type} (n : nat) (ls : list (list A)) :
  Forall (fun l => length l = n) ls ->
  length (concat ls) = (length ls * n)%nat.
Proof.
  induction 1 as [|l ls Hl _ IH]; cbn [concat length]; [reflexivity|].
  rewrite length_app, IH, Hl. reflexivity.
Qed.

Lemma nth_concat_uniform {A : Type} (n : nat) (d : A) (ls : list (list A)) :
  Forall (fun l => length l = n) ls ->
  forall i j : nat,
    (j < n)%nat ->
    nth (i * n + j) (concat ls) d = nth j (nth i ls []) d.
Proof.
  induction 1 as [|l ls Hl _ IH]; intros i j Hj.
  - cbn [concat]. destruct i; cbn [nth]; now destruct (_ + j)%nat, j.
  - cbn [concat]. destruct i as [|i].
    + cbn [Nat.mul Nat.add nth]. apply app_nth1. lia.
    + rewrite app_nth2 by (rewrite Hl; cbn [Nat.mul]; lia).
      replace (S i * n + j - length l)%nat with (i * n + j)%nat
        by (rewrite Hl; cbn [Nat.mul]; lia).
      cbn [nth]. now apply IH.
Qed.

(** Mapping over a list is mapping over its indices. *)
Lemma map_as_zrange {A B : Type} (f : A -> B) (d : A) (l : list A) (n : Z) :
  length l = Z.to_nat n ->
  map f l = map (fun i => f (nth (Z.to_nat i) l d)) (zrange n).
Proof.
  intros Hlen. apply (nth_ext _ _ (f d) (f d)).
  - now rewrite !length_map, length_zrange.
  - intros i Hi. rewrite length_map in Hi.
    rewrite map_nth.
    rewrite (nth_map_in _ _ _ _ 0) by (rewrite length_zrange; lia).
    rewrite nth_zrange by lia. now rewrite Nat2Z.id.
Qed.

Lemma well_formed_shaped (im : Image) : well_formed im -> shaped im.
Proof.
  unfold well_formed, shaped. destruct (size im) as [w h]. cbn [fst snd].
  intros (Hw & Hh & Hlen & Hrows). repeat split; try assumption.
  eapply Forall_impl; [|exact Hrows]. intros r [Hr _]. exact Hr.
Qed.

Lemma shaped_map_pixels (f : Z -> Z) (im : Image) :
  shaped im -> shaped (map_pixels f im).
Proof.
  unfold shaped, map_pixels. cbn [size rows].
  intros (Hw & Hh & Hlen & Hrows). repeat split; try assumption.
  - now rewrite length_map.
  - apply Forall_map. eapply Forall_impl; [|exact Hrows].
    intros r Hr. cbn beta. now rewrite length_map.
Qed.

Lemma shaped_monochrome (im : Image) : shaped im -> shaped (monochrome im).
Proof.
  intros H. unfold monochrome, convert_1, invert, convert_L.
  now do 2 apply shaped_map_pixels.
Qed.

Lemma size_monochrome (im : Image) : size (monochrome im) = size im.
Proof. reflexivity. Qed.

Section Packing.

Variable im : Image.
Hypothesis Hshaped : shaped im.

(** In a shaped image a pixel read is a list read, also to the right of
    and below the image, where both give 0. *)
Lemma getpixel0_nth (x y : Z) :
  0 <= x -> 0 <= y ->
  getpixel0 im x y = nth (Z.to_nat x) (nth (Z.to_nat y) (rows im) []) 0.
Proof.
  revert Hshaped.
  unfold shaped, getpixel0. destruct (size im) as [w h]. cbn [fst snd].
  intros (Hw & Hh & Hlen & Hrows) Hx Hy.
  destruct ((0 <=? x) && (x <? w) && (0 <=? y) && (y <? h)) eqn:E;
    [reflexivity|].
  symmetry.
  destruct (Z.ltb_spec y h) as [Hyh|Hyh].
  - assert (Hxw : w <= x).
    { destruct (Z.ltb_spec x w) as [Hxw|Hxw]; [|exact Hxw].
      replace (0 <=? x) with true in E by (symmetry; apply Z.leb_le; lia).
      replace (0 <=? y) with true in E by (symmetry; apply Z.leb_le; lia).
      discriminate E. }
    apply nth_overflow.
    assert (Hin : In (nth (Z.to_nat y) (rows im) []) (rows im))
      by (apply nth_In; lia).
    rewrite Forall_forall in Hrows. rewrite (Hrows _ Hin). lia.
  - rewrite (nth_overflow (rows im)) by lia.
    now destruct (Z.to_nat x).
Qed.

Lemma getpixel0_right (x y : Z) :
  fst (size im) <= x -> getpixel0 im x y = 0.
Proof.
  unfold getpixel0. destruct (size im) as [w h]. cbn [fst]. intros Hx.
  replace (x <? w) with false by (symmetry; apply Z.ltb_ge; lia).
  now rewrite andb_false_r.
Qed.

Lemma length_tobytes :
  length (tobytes im)
  = (Z.to_nat (snd (size im)) * Z.to_nat ((fst (size im) + 7) / 8))%nat.
Proof.
  unfold tobytes. destruct (size im) as [w h]. cbn [fst snd].
  rewrite (length_concat_uniform (Z.to_nat ((w + 7) / 8))).
  - now rewrite length_map, length_zrange.
  - apply Forall_map, Forall_forall. intros y _. cbn beta.
    now rewrite length_map, length_zrange.
Qed.

(** Byte [b] of row [y] sits at index [y * width_bytes + b]. *)
Lemma nth_tobytes (y b : Z) :
  0 <= y < snd (size im) ->
  0 <= b < (fst (size im) + 7) / 8 ->
  nth (Z.to_nat (y * ((fst (size im) + 7) / 8) + b)) (tobytes im) 0
  = pack_byte im y b.
Proof.
  unfold tobytes. destruct (size im) as [w h]. cbn [fst snd].
  intros Hy Hb.
  replace (Z.to_nat (y * ((w + 7) / 8) + b))
    with (Z.to_nat y * Z.to_nat ((w + 7) / 8) + Z.to_nat b)%nat by nia.
  rewrite nth_concat_uniform.
  - rewrite (nth_map_in _ _ _ _ 0) by (rewrite length_zrange; lia).
    rewrite (nth_map_in _ _ _ _ 0) by (rewrite length_zrange; lia).
    rewrite !nth_zrange, !Z2Nat.id by lia. reflexivity.
  - apply Forall_map, Forall_forall. intros y' _. cbn beta.
    now rewrite length_map, length_zrange.
  - lia.
Qed.

(** Bit [7 - i] of a packed byte is pixel [i] of its group of eight. *)
Lemma testbit_pack8 (f : Z -> Z) (i : Z) :
  0 <= i < 8 ->
  Z.testbit (fold_left (fun acc k => 2 * acc + bit_of (f k)) (zrange 8) 0)
            (7 - i)
  = negb (f i =? 0).
Proof.
  intros Hi.
  change (zrange 8) with [0; 1; 2; 3; 4; 5; 6; 7].
  cbn [fold_left]. unfold bit_of.
  assert (Hc : i = 0 \/ i = 1 \/ i = 2 \/ i = 3 \/
               i = 4 \/ i = 5 \/ i = 6 \/ i = 7) by lia.
  destruct Hc as [->|[->|[->|[->|[->|[->|[->| ->]]]]]]];
    destruct (f 0 =? 0), (f 1 =? 0), (f 2 =? 0), (f 3 =? 0),
             (f 4 =? 0), (f 5 =? 0), (f 6 =? 0), (f 7 =? 0);
    reflexivity.
Qed.

Lemma testbit_pack_byte (y b i : Z) :
  0 <= i < 8 ->
  Z.testbit (pack_byte im y b) (7 - i)
  = negb (getpixel0 im (8 * b + i) y =? 0).
Proof.
  intros Hi. unfold pack_byte.
  exact (testbit_pack8 (fun k => getpixel0 im (8 * b + k) y) i Hi).
Qed.

(** Every cell of the packed image, padding included: cell [(x, y)] is
    bit [7 - x mod 8] of byte [y * width_bytes + x / 8]. *)
Lemma tobytes_bit (x y : Z) :
  0 <= y < snd (size im) ->
  0 <= x < 8 * ((fst (size im) + 7) / 8) ->
  Z.testbit (nth (Z.to_nat (y * ((fst (size im) + 7) / 8) + x / 8))
                 (tobytes im) 0)
            (7 - x mod 8)
  = if x <? fst (size im) then negb (getpixel0 im x y =? 0) else false.
Proof.
  intros Hy Hx.
  pose proof (Z.div_mod x 8 ltac:(lia)) as Hdm.
  pose proof (Z.mod_pos_bound x 8 ltac:(lia)) as Hm.
  rewrite nth_tobytes by (try exact Hy; lia).
  rewrite testbit_pack_byte by exact Hm.
  rewrite <- Hdm.
  destruct (Z.ltb_spec x (fst (size im))) as [Hlt|Hge]; [reflexivity|].
  now rewrite getpixel0_right.
Qed.


End Packing.

(** ** The raster-format run *)

Lemma width_bytes_of_ceil (w : Z) :
  8 * RasterFormat.width_bytes_of w - 8 < w <= 8 * RasterFormat.width_bytes_of w.
Proof.
  unfold RasterFormat.width_bytes_of.
  pose proof (Z.div_mod (w + 7) 8 ltac:(lia)).
  pose proof (Z.mod_pos_bound (w + 7) 8 ltac:(lia)).
  lia.
Qed.

(** On a black-and-white image the monochrome bitmap has ink exactly where
    the image is black. *)
Lemma bitmap_of_monochrome_bilevel (im : Image) :
  Forall (Forall (fun p => p = 0 \/ p = 255)) (rows im) ->
  bitmap_of (monochrome im) = map (map (fun p => p =? 0)) (rows im).
Proof.
  intros Hbw. unfold bitmap_of, monochrome, convert_1, invert, convert_L,
    map_pixels. cbn [rows].
  rewrite !map_map. apply map_ext_in. intros r Hr.
  rewrite !map_map. apply map_ext_in. intros p Hp.
  rewrite Forall_forall in Hbw. specialize (Hbw r Hr).
  rewrite Forall_forall in Hbw. destruct (Hbw p Hp) as [-> | ->]; reflexivity.
Qed.

Lemma raster_main_cases (hdh hdv : bool) (im : Image) :
  let wb := RasterFormat.width_bytes_of (fst (size im)) in
  let h := snd (size im) in
  RasterFormat.main hdh hdv im =
  if (0 <=? wb) && (wb <=? 8388608) && ((0 <=? h) && (h <=? 8388608))
  then Ok [[29; 118; 48; raster_flag hdh hdv]
           ++ encodeLE 2 wb ++ encodeLE 2 h
           ++ RasterFormat._to_raster_format im]
  else Raise ValueError.
Proof.
  cbv zeta. unfold RasterFormat.main.
  destruct (size im) as [w h]. cbn [fst snd].
  assert (Hd : int2byte ((if hdv then 0 else 1) + (if hdh then 0 else 2))
               = Ok [raster_flag hdh hdv])
    by (destruct hdh, hdv; reflexivity).
  rewrite Hd. cbn [bind].
  rewrite !raster_int_low_high_same, !int_low_high_cases.
  change (2 ^ (8 * 2 + 7)) with 8388608.
  change (Z.to_nat 2) with 2%nat.
  change ((1 <=? 2) && (2 <=? 4)) with true. cbn [andb].
  destruct ((0 <=? RasterFormat.width_bytes_of w)
            && (RasterFormat.width_bytes_of w <=? 8388608));
    cbn [bind andb]; [|reflexivity].
  destruct ((0 <=? h) && (h <=? 8388608)); cbn [bind]; reflexivity.
Qed.

Lemma decodeLE_encodeLE_2 (v : Z) :
  0 <= v -> decodeLE (encodeLE 2 v) = v mod 65536.
Proof. intros Hv. now rewrite decodeLE_encodeLE. Qed.

Lemma raster_main_accepts (hdh hdv : bool) (im : Image) :
  0 <= fst (size im) ->
  RasterFormat.width_bytes_of (fst (size im)) <= 8388608 ->
  0 <= snd (size im) <= 8388608 ->
  RasterFormat.main hdh hdv im
  = Ok [[29; 118; 48; raster_flag hdh hdv]
        ++ encodeLE 2 (RasterFormat.width_bytes_of (fst (size im)))
        ++ encodeLE 2 (snd (size im))
        ++ RasterFormat._to_raster_format im].
Proof.
  intros Hw Hwb Hh.
  pose proof (width_bytes_of_ceil (fst (size im))) as Hceil.
  pose proof (raster_main_cases hdh hdv im) as Hm. cbv zeta in Hm.
  rewrite Hm. decide_tests. reflexivity.
Qed.





(** C7 (raster scenario): on the 16 by 8 all-black image with both density
    settings on, the script writes a single command: [GS 'v' '0'], the flag
    byte 0, the width-in-bytes field 2, the height field 8, and a payload
    of 16 bytes, each 0xFF. *)
Theorem C7_raster_black_16x8 :
  RasterFormat.width_bytes_of (fst (size black_16x8)) = 2 /\
  raster_flag true true = 0 /\
  RasterFormat._to_raster_format black_16x8 = repeat 255 16%nat /\
  RasterFormat.main true true black_16x8
  = Ok [[29; 118; 48] ++ [0] ++ [2; 0] ++ [8; 0] ++ repeat 255 16%nat].
Proof. repeat split. Qed.


(** ** Strips *)

Lemma nth_skipn_pad (r : list Z) (n m i : nat) :
  nth i (skipn n r ++ repeat 0 m) 0 = nth (n + i) r 0.
Proof.
  destruct (Nat.lt_ge_cases i (length (skipn n r))) as [Hlt|Hge].
  - rewrite app_nth1 by exact Hlt. apply nth_skipn.
  - rewrite app_nth2 by exact Hge. rewrite nth_repeat.
    rewrite length_skipn in Hge. symmetry. apply nth_overflow. lia.
Qed.

Lemma extent_unit (o n i : Z) :
  0 < n -> o + ((2 * i + 1) * (o + n - o)) / (2 * n) = o + i.
Proof.
  intros Hn. f_equal. symmetry.
  apply (Z.div_unique _ _ i n); lia.
Qed.

Lemma size_transform_EXTENT (sz : Z * Z) (x0 y0 x1 y1 : Z) (im : Image) :
  size (transform_EXTENT sz (x0, y0, x1, y1) im) = sz.
Proof. destruct sz. reflexivity. Qed.

Lemma strip_count_bounds (W sw : Z) :
  0 < sw -> sw * (strip_count W sw - 1) < W <= sw * strip_count W sw.
Proof.
  intros Hsw. unfold strip_count.
  pose proof (Z.div_mod (W + sw - 1) sw ltac:(lia)).
  pose proof (Z.mod_pos_bound (W + sw - 1) sw ltac:(lia)).
  nia.
Qed.

Section Strips.

Variables (im : Image) (sw : Z).
Hypothesis Hshaped : shaped im.
Hypothesis Hsw : 0 < sw.

(** The library's extraction of the box at column [k * strip_width] is the
    list-wise strip: the row pixels from that column on, then blanks. *)
Lemma transform_EXTENT_strip (k : Z) :
  0 <= k ->
  transform_EXTENT (sw, snd (size im))
    (k * sw, 0, k * sw + sw, snd (size im)) im
  = strip_of im sw k.
Proof.
  intros Hk. pose proof Hshaped as (Hw & Hh & Hlen & Hrows).
  unfold transform_EXTENT, strip_of. f_equal.
  rewrite (map_as_zrange _ [] (rows im) (snd (size im)) Hlen).
  apply map_ext_in. intros y Hy. apply In_zrange in Hy.
  apply (nth_ext _ _ 0 0).
  - rewrite length_map, length_zrange, length_firstn, length_app,
      repeat_length. lia.
  - intros i Hi. rewrite length_map, length_zrange in Hi.
    rewrite (nth_map_in _ _ _ _ 0) by (rewrite length_zrange; lia).
    rewrite nth_zrange by lia.
    rewrite nth_firstn.
    replace (i <? Z.to_nat sw)%nat with true
      by (symmetry; apply Nat.ltb_lt; lia).
    rewrite nth_skipn_pad.
    rewrite extent_unit by lia.
    replace (snd (size im) - 0) with (0 + snd (size im) - 0) by lia.
    rewrite extent_unit by lia.
    rewrite getpixel0_nth by (try exact Hshaped; lia).
    replace (Z.to_nat (k * sw + Z.of_nat i))
      with (Z.to_nat (k * sw) + i)%nat by nia.
    reflexivity.
Qed.

(** Pixel [x] of row [y] of strip [k] is pixel [k * strip_width + x] of the
    image where the image has one, and blank otherwise. *)
Lemma strip_of_pixel (k x y : Z) :
  0 <= k -> 0 <= x < sw -> 0 <= y < snd (size im) ->
  nth (Z.to_nat x) (nth (Z.to_nat y) (rows (strip_of im sw k)) []) 0
  = if k * sw + x <? fst (size im)
    then nth (Z.to_nat (k * sw + x)) (nth (Z.to_nat y) (rows im) []) 0
    else 0.
Proof.
  intros Hk Hx Hy. pose proof Hshaped as (Hw & Hh & Hlen & Hrows).
  unfold strip_of. cbn [rows].
  rewrite (nth_map_in _ _ _ _ []) by lia.
  rewrite nth_firstn.
  replace (Z.to_nat x <? Z.to_nat sw)%nat with true
    by (symmetry; apply Nat.ltb_lt; lia).
  rewrite nth_skipn_pad.
  replace (Z.to_nat (k * sw) + Z.to_nat x)%nat
    with (Z.to_nat (k * sw + x)) by nia.
  destruct (Z.ltb_spec (k * sw + x) (fst (size im))) as [Hlt|Hge];
    [reflexivity|].
  apply nth_overflow.
  assert (Hin : In (nth (Z.to_nat y) (rows im) []) (rows im))
    by (apply nth_In; lia).
  rewrite Forall_forall in Hrows. rewrite (Hrows _ Hin). lia.
Qed.

End Strips.

(** C5 (strips of the column encoder): for a well-formed bitmap and a
    strip width [line_height * 8] with [line_height >= 1],
    [_to_column_format] returns; the number of blobs is the ceiling of
    [width / strip_width], so the strips cover the full width and no more;
    blob [k] is the packing of strip [k], the [strip_width] columns that
    start at [k * strip_width], in left-to-right order; a strip that
    reaches past the right edge, as the last one does when the width is
    not a multiple of the strip width, holds blank (0) pixels there; and
    every blob has the same length, [height * line_height] bytes. *)
Theorem C5_column_strips_cover_and_pad (im : Image) (line_height : Z)
    (Hwf : well_formed im) (Hlh : 1 <= line_height) :
  let sw := line_height * 8 in
  let W := fst (size im) in
  let H := snd (size im) in
  let n := strip_count W sw in
  sw * (n - 1) < W <= sw * n /\
  exists blobs : list bytes,
    ColumnFormat._to_column_format im sw = Ok blobs /\
    Z.of_nat (length blobs) = n /\
    (forall k, 0 <= k < n ->
       nth (Z.to_nat k) blobs [] = tobytes (strip_of im sw k)) /\
    (forall k x y, 0 <= k < n -> 0 <= x < sw -> 0 <= y < H ->
       nth (Z.to_nat x) (nth (Z.to_nat y) (rows (strip_of im sw k)) []) 0
       = if k * sw + x <? W
         then nth (Z.to_nat (k * sw + x)) (nth (Z.to_nat y) (rows im) []) 0
         else 0) /\
    (forall blob, In blob blobs ->
       Z.of_nat (length blob) = H * line_height).
Proof.
  cbv zeta.
  pose proof (well_formed_shaped im Hwf) as Hs.
  pose proof Hs as (Hw & Hh & Hlen & Hrows).
  assert (Hsw : 0 < line_height * 8) by lia.
  pose proof (strip_count_bounds (fst (size im)) (line_height * 8) Hsw) as Hn.
  assert (Hn0 : 0 <= strip_count (fst (size im)) (line_height * 8)) by nia.
  split; [exact Hn|].
  eexists. split; [apply to_column_format_spec; exact Hsw|].
  split; [rewrite length_map, length_zrange; lia|].
  split.
  { intros k Hk.
    rewrite (nth_map_in _ _ _ _ 0) by (rewrite length_zrange; lia).
    rewrite nth_zrange, Z2Nat.id by lia.
    now rewrite transform_EXTENT_strip by (try exact Hs; lia). }
  split.
  { intros k x y Hk Hx Hy. apply strip_of_pixel; try assumption; lia. }
  intros blob Hin. apply in_map_iff in Hin. destruct Hin as [k [<- _]].
  rewrite length_tobytes, size_transform_EXTENT. cbn [fst snd].
  replace ((line_height * 8 + 7) / 8) with line_height.
  - rewrite Nat2Z.inj_mul, !Z2Nat.id by lia. reflexivity.
  - apply (Z.div_unique _ _ line_height 7); lia.
Qed.

Lemma C5_column_strips_cover_and_pad_witness :
  let im := sample_3x2 in
  let line_height := 1 in
  let sw := line_height * 8 in
  let W := fst (size im) in
  let H := snd (size im) in
  let n := strip_count W sw in
  sw * (n - 1) < W <= sw * n /\
  exists blobs : list bytes,
    ColumnFormat._to_column_format im sw = Ok blobs /\
    Z.of_nat (length blobs) = n /\
    (forall k, 0 <= k < n ->
       nth (Z.to_nat k) blobs [] = tobytes (strip_of im sw k)) /\
    (forall k x y, 0 <= k < n -> 0 <= x < sw -> 0 <= y < H ->
       nth (Z.to_nat x) (nth (Z.to_nat y) (rows (strip_of im sw k)) []) 0
       = if k * sw + x <? W
         then nth (Z.to_nat (k * sw + x)) (nth (Z.to_nat y) (rows im) []) 0
         else 0) /\
    (forall blob, In blob blobs ->
       Z.of_nat (length blob) = H * line_height).
Proof.
  apply (C5_column_strips_cover_and_pad sample_3x2 1).
  - unfold well_formed, sample_3x2. cbn [size rows length].
    repeat split; try lia; repeat constructor; lia.
  - lia.
Defined.

Lemma shaped_transpose (m : method) (im : Image) :
  0 <= fst (size im) -> 0 <= snd (size im) -> shaped (transpose m im).
Proof.
  unfold shaped, transpose. destruct (size im) as [w h]. cbn [fst snd].
  intros Hw Hh.
  destruct m; cbn [size rows fst snd];
    (repeat split; try assumption;
     [ now rewrite length_map, length_zrange
     | apply Forall_map, Forall_forall; intros y _; cbn beta;
       now rewrite length_map, length_zrange ]).
Qed.

Lemma shaped_rotated_bitmap (im : Image) :
  shaped im -> shaped (rotated_bitmap im).
Proof.
  intros Hs. pose proof (shaped_monochrome im Hs) as (Hw & Hh & _ & _).
  unfold rotated_bitmap.
  assert (Hr : shaped (transpose ROTATE_270 (monochrome im)))
    by (apply shaped_transpose; assumption).
  destruct Hr as (Hw' & Hh' & _ & _).
  apply shaped_transpose; assumption.
Qed.

Lemma strip_row_padded (r0 : list Z) :
  length r0 = 8%nat ->
  length (firstn 24 (skipn 0 r0 ++ repeat 0 24%nat)) = 24%nat /\
  skipn 8 (firstn 24 (skipn 0 r0 ++ repeat 0 24%nat)) = repeat 0 16%nat.
Proof.
  intros Hlen. change (skipn 0 r0) with r0.
  rewrite firstn_app, Hlen, firstn_all2 by lia.
  change (firstn (24 - 8) (repeat 0 24%nat)) with (repeat 0 16%nat).
  split.
  - rewrite length_app, Hlen. reflexivity.
  - rewrite skipn_app, Hlen, skipn_all2 by lia. reflexivity.
Qed.

(** C8 (column scenario): on any 16 by 8 image with both density settings
    on, the line height is 3 and the strip width 24; the rotated bitmap is
    8 wide, so there is exactly one strip; it is 24 columns wide with
    columns 8..23 blank, packed into 48 bytes; and the run writes the one
    command [0x1B '*'] with flag byte 33 and width field 16 between the
    two line-spacing commands. *)
Theorem C8_column_16x8_single_padded_strip (im : Image)
    (Hwf : well_formed im) (Hsize : size im = (16, 8)) :
  let line_height := if true then 3 else 1 in
  let sw := line_height * 8 in
  line_height = 3 /\ sw = 24 /\
  fst (size (rotated_bitmap im)) = 8 /\
  strip_count (fst (size (rotated_bitmap im))) sw = 1 /\
  column_flag true true = 33 /\
  exists blob : bytes,
    ColumnFormat._to_column_format (rotated_bitmap im) sw = Ok [blob] /\
    blob = tobytes (strip_of (rotated_bitmap im) sw 0) /\
    length blob = 48%nat /\
    (forall r, In r (rows (strip_of (rotated_bitmap im) sw 0)) ->
               length r = 24%nat /\ skipn 8 r = repeat 0 16%nat) /\
    ColumnFormat.main true true im
    = Ok [[27; 51; 16]; [27; 42; 33; 16; 0] ++ blob ++ [10]; [27; 50]] /\
    width_field ([27; 42; 33; 16; 0] ++ blob ++ [10]) = 16.
Proof.
  cbv zeta.
  pose proof (shaped_rotated_bitmap im (well_formed_shaped im Hwf)) as Hs.
  pose proof Hs as (_ & _ & _ & Hrows).
  pose proof (size_rotated_bitmap im) as Hsz. rewrite Hsize in Hsz.
  cbn [fst snd] in Hsz. rewrite Hsz in Hrows |- *. cbn [fst snd] in Hrows |- *.
  change ((if true then 3 else 1) * 8) with 24.
  repeat (split; [reflexivity|]).
  assert (Hb : ColumnFormat._to_column_format (rotated_bitmap im) 24
               = Ok [tobytes (strip_of (rotated_bitmap im) 24 0)]).
  { rewrite to_column_format_spec by lia. rewrite Hsz. cbn [fst snd].
    change (zrange (strip_count 8 24)) with [0]. cbn [map].
    rewrite <- (transform_EXTENT_strip (rotated_bitmap im) 24 Hs) by lia.
    now rewrite Hsz. }
  eexists. split; [exact Hb|].
  split; [reflexivity|].
  split.
  { rewrite length_tobytes. unfold strip_of. cbn [size fst snd].
    rewrite Hsz. reflexivity. }
  split.
  { intros r Hr. unfold strip_of in Hr. cbn [rows] in Hr.
    apply in_map_iff in Hr. destruct Hr as [r0 [<- Hr0]].
    rewrite Forall_forall in Hrows. specialize (Hrows r0 Hr0).
    exact (strip_row_padded r0 Hrows). }
  split; [|reflexivity].
  rewrite (column_main_cases true true im _ Hb), Hsize.
  reflexivity.
Qed.

Lemma C8_column_16x8_single_padded_strip_witness :
  let im := black_16x8 in
  let line_height := if true then 3 else 1 in
  let sw := line_height * 8 in
  line_height = 3 /\ sw = 24 /\
  fst (size (rotated_bitmap im)) = 8 /\
  strip_count (fst (size (rotated_bitmap im))) sw = 1 /\
  column_flag true true = 33 /\
  exists blob : bytes,
    ColumnFormat._to_column_format (rotated_bitmap im) sw = Ok [blob] /\
    blob = tobytes (strip_of (rotated_bitmap im) sw 0) /\
    length blob = 48%nat /\
    (forall r, In r (rows (strip_of (rotated_bitmap im) sw 0)) ->
               length r = 24%nat /\ skipn 8 r = repeat 0 16%nat) /\
    ColumnFormat.main true true im
    = Ok [[27; 51; 16]; [27; 42; 33; 16; 0] ++ blob ++ [10]; [27; 50]] /\
    width_field ([27; 42; 33; 16; 0] ++ blob ++ [10]) = 16.
Proof.
  apply (C8_column_16x8_single_padded_strip black_16x8).
  - unfold well_formed, black_16x8. cbn [size rows length repeat].
    repeat split; try lia; repeat constructor; lia.
  - reflexivity.
Defined.


(** * Further properties of the scripts *)

(** ** The integer encoder: refusals, and what a returned value is *)

(** X1 (byte count check): whatever the number, a byte count below 1, or
    from 5 up to 8192, makes [_int_low_high] raise [ValueError] in both
    scripts; for a count of 0 or less the error already comes from the
    shift that computes [max_input], whose count is then negative.  The
    bound 8192 keeps the shift count within 65535, where Python computes
    the shift. *)
Theorem X1_int_low_high_rejects_byte_count (v n : Z)
    (Hn : ~ 1 <= n <= 4) (Hmax : n <= 8192) :
  ColumnFormat._int_low_high v n = Raise ValueError /\
  RasterFormat._int_low_high v n = Raise ValueError.
Proof.
  assert (Hc : ColumnFormat._int_low_high v n = Raise ValueError).
  { rewrite int_low_high_cases.
    destruct (Z.lt_ge_cases n 1) as [Hlo|Hhi].
    - replace (1 <=? n) with false by (symmetry; apply Z.leb_gt; lia).
      reflexivity.
    - replace (1 <=? n) with true by (symmetry; apply Z.leb_le; lia).
      replace (n <=? 4) with false by (symmetry; apply Z.leb_gt; lia).
      reflexivity. }
  split; [exact Hc|].
  rewrite <- Hc. apply raster_int_low_high_same.
Qed.

Lemma X1_int_low_high_rejects_byte_count_witness :
  ColumnFormat._int_low_high 7 5 = Raise ValueError /\
  RasterFormat._int_low_high 7 5 = Raise ValueError.
Proof.
  apply (X1_int_low_high_rejects_byte_count 7 5); lia.
Defined.

(** X2 (number check): with a byte count [n] in 1..4, a negative number
    and a number above [2^(8n+7)] make [_int_low_high] raise [ValueError]
    in both scripts. *)
Theorem X2_int_low_high_rejects_number (v n : Z)
    (Hn : 1 <= n <= 4) (Hv : v < 0 \/ 2 ^ (8 * n + 7) < v) :
  ColumnFormat._int_low_high v n = Raise ValueError /\
  RasterFormat._int_low_high v n = Raise ValueError.
Proof.
  assert (Hc : ColumnFormat._int_low_high v n = Raise ValueError).
  { rewrite int_low_high_cases.
    replace (1 <=? n) with true by (symmetry; apply Z.leb_le; lia).
    replace (n <=? 4) with true by (symmetry; apply Z.leb_le; lia).
    cbn [andb].
    destruct Hv as [Hneg|Hbig].
    - replace (0 <=? v) with false by (symmetry; apply Z.leb_gt; lia).
      reflexivity.
    - assert (0 < 2 ^ (8 * n + 7)) by (apply Z.pow_pos_nonneg; lia).
      replace (0 <=? v) with true by (symmetry; apply Z.leb_le; lia).
      replace (v <=? 2 ^ (8 * n + 7)) with false
        by (symmetry; apply Z.leb_gt; lia).
      reflexivity. }
  split; [exact Hc|].
  rewrite <- Hc. apply raster_int_low_high_same.
Qed.

Lemma X2_int_low_high_rejects_number_witness :
  ColumnFormat._int_low_high 32769 1 = Raise ValueError /\
  RasterFormat._int_low_high 32769 1 = Raise ValueError.
Proof.
  apply (X2_int_low_high_rejects_number 32769 1).
  - lia.
  - right. reflexivity.
Defined.

Lemma Forall_byte_encodeLE (n : nat) : forall v,
  Forall (fun b => 0 <= b <= 255) (encodeLE n v).
Proof.
  induction n as [|n IH]; intros v; cbn [encodeLE]; constructor.
  - pose proof (Z.mod_pos_bound v 256 ltac:(lia)). lia.
  - apply IH.
Qed.

(** X3 (what a returned value is): whenever [_int_low_high] returns, the
    byte count was in 1..4, the number in [0 .. 2^(8n+7)], and the result
    is exactly [n] bytes, each in 0..255, that read back little-endian as
    the number modulo [2^(8n)]. *)
Theorem X3_int_low_high_result_invariant (v n : Z) (bs : list Z)
    (Hrun : ColumnFormat._int_low_high v n = Ok bs) :
  1 <= n <= 4 /\ 0 <= v <= 2 ^ (8 * n + 7) /\
  Z.of_nat (length bs) = n /\
  Forall (fun b => 0 <= b <= 255) bs /\
  decodeLE bs = v mod 2 ^ (8 * n).
Proof.
  rewrite int_low_high_cases in Hrun.
  destruct ((1 <=? n) && (n <=? 4) && (0 <=? v) && (v <=? 2 ^ (8 * n + 7)))
    eqn:E; [|discriminate Hrun].
  apply andb_true_iff in E. destruct E as [E E4].
  apply andb_true_iff in E. destruct E as [E E3].
  apply andb_true_iff in E. destruct E as [E1 E2].
  apply Z.leb_le in E1, E2, E3, E4.
  injection Hrun as <-.
  repeat split; try assumption.
  - rewrite length_encodeLE. lia.
  - apply Forall_byte_encodeLE.
  - rewrite decodeLE_encodeLE by lia.
    now rewrite Z2Nat.id, pow_256 by lia.
Qed.

Lemma X3_int_low_high_result_invariant_witness :
  1 <= 2 <= 4 /\ 0 <= 70000 <= 2 ^ (8 * 2 + 7) /\
  Z.of_nat (length [112; 17]) = 2 /\
  Forall (fun b => 0 <= b <= 255) [112; 17] /\
  decodeLE [112; 17] = 70000 mod 2 ^ (8 * 2).
Proof.
  apply (X3_int_low_high_result_invariant 70000 2 [112; 17]).
  reflexivity.
Defined.

(** X4 (no other failure): for every number and every byte count of at
    most 8192 (a shift count within 65535, where Python computes the
    shift), [_int_low_high] ends, and the only exception it raises is
    [ValueError]; the [struct.error] of [six.int2byte] cannot occur, since
    each byte handed to it is a remainder modulo 256. *)
Theorem X4_int_low_high_only_value_error (v n : Z) (Hmax : n <= 8192) :
  (exists bs, ColumnFormat._int_low_high v n = Ok bs /\
              RasterFormat._int_low_high v n = Ok bs) \/
  (ColumnFormat._int_low_high v n = Raise ValueError /\
   RasterFormat._int_low_high v n = Raise ValueError).
Proof.
  pose proof (raster_int_low_high_same v n) as Hsame.
  pose proof (int_low_high_cases v n) as Hc.
  destruct ((1 <=? n) && (n <=? 4) && (0 <=? v) && (v <=? 2 ^ (8 * n + 7))).
  - left. eexists. split; [exact Hc | now rewrite Hsame].
  - right. split; [exact Hc | now rewrite Hsame].
Qed.

Lemma X4_int_low_high_only_value_error_witness :
  (exists bs, ColumnFormat._int_low_high 258 2 = Ok bs /\
              RasterFormat._int_low_high 258 2 = Ok bs) \/
  (ColumnFormat._int_low_high 258 2 = Raise ValueError /\
   RasterFormat._int_low_high 258 2 = Raise ValueError).
Proof.
  apply (X4_int_low_high_only_value_error 258 2). lia.
Defined.

Lemma encodeLE_app (n m : nat) : forall v,
  0 <= v ->
  encodeLE (n + m) v = encodeLE n v ++ encodeLE m (v / 256 ^ Z.of_nat n).
Proof.
  induction n as [|n IH]; intros v Hv.
  - cbn [Nat.add encodeLE app]. now rewrite Z.pow_0_r, Z.div_1_r.
  - cbn [Nat.add encodeLE app]. rewrite IH by (apply Z.div_pos; lia).
    rewrite Z.div_div by lia.
    rewrite Nat2Z.inj_succ, Z.pow_succ_r by lia. reflexivity.
Qed.

(** X5 (lower and higher parts): for byte counts [n], [m] of at least 1
    with [n + m <= 4] and a number below [2^(8(n+m))], encoding the number
    in [n + m] bytes gives the [n]-byte encoding of its low part
    [v mod 2^(8n)] followed by the [m]-byte encoding of its high part
    [v / 2^(8n)]. *)
Theorem X5_int_low_high_low_then_high (v n m : Z)
    (Hn : 1 <= n) (Hm : 1 <= m) (Hnm : n + m <= 4)
    (Hv : 0 <= v < 2 ^ (8 * (n + m))) :
  exists lo hi : list Z,
    ColumnFormat._int_low_high (v mod 2 ^ (8 * n)) n = Ok lo /\
    ColumnFormat._int_low_high (v / 2 ^ (8 * n)) m = Ok hi /\
    ColumnFormat._int_low_high v (n + m) = Ok (lo ++ hi).
Proof.
  assert (Hpn : 0 < 2 ^ (8 * n)) by (apply Z.pow_pos_nonneg; lia).
  assert (Hpm : 0 < 2 ^ (8 * m)) by (apply Z.pow_pos_nonneg; lia).
  assert (Hsplit : 2 ^ (8 * (n + m)) = 2 ^ (8 * n) * 2 ^ (8 * m)).
  { rewrite <- Z.pow_add_r by lia. f_equal. lia. }
  pose proof (Z.mod_pos_bound v (2 ^ (8 * n)) Hpn) as Hlo.
  assert (Hhi : 0 <= v / 2 ^ (8 * n) < 2 ^ (8 * m)).
  { split; [apply Z.div_pos; lia|].
    apply Z.div_lt_upper_bound; [lia|]. rewrite <- Hsplit. lia. }
  assert (Hn7 : 2 ^ (8 * n) < 2 ^ (8 * n + 7))
    by (apply Z.pow_lt_mono_r; lia).
  assert (Hm7 : 2 ^ (8 * m) < 2 ^ (8 * m + 7))
    by (apply Z.pow_lt_mono_r; lia).
  assert (Hnm7 : 2 ^ (8 * (n + m)) < 2 ^ (8 * (n + m) + 7))
    by (apply Z.pow_lt_mono_r; lia).
  exists (encodeLE (Z.to_nat n) v), (encodeLE (Z.to_nat m) (v / 2 ^ (8 * n))).
  split.
  { rewrite int_low_high_cases. decide_tests. cbn [andb]. f_equal.
    pose proof (encodeLE_mod (Z.to_nat n) v ltac:(lia)) as He.
    now rewrite Z2Nat.id, pow_256 in He by lia. }
  split.
  { rewrite int_low_high_cases. decide_tests. reflexivity. }
  rewrite int_low_high_cases. decide_tests. cbn [andb]. f_equal.
  rewrite Z2Nat.inj_add, encodeLE_app by lia.
  now rewrite Z2Nat.id, pow_256 by lia.
Qed.

Lemma X5_int_low_high_low_then_high_witness :
  exists lo hi : list Z,
    ColumnFormat._int_low_high (4660 mod 2 ^ (8 * 1)) 1 = Ok lo /\
    ColumnFormat._int_low_high (4660 / 2 ^ (8 * 1)) 1 = Ok hi /\
    ColumnFormat._int_low_high 4660 (1 + 1) = Ok (lo ++ hi).
Proof.
  apply (X5_int_low_high_low_then_high 4660 1 1).
  - lia.
  - lia.
  - lia.
  - split; [lia | reflexivity].
Defined.

(** ** Pixels through the rotation and the strips *)

(** A pixel of an image given by a formula for its cells. *)
Lemma getpixel0_tabulate (w h : Z) (f : Z -> Z -> Z) (x y : Z) :
  0 <= x < w -> 0 <= y < h ->
  getpixel0 (mkImage (w, h)
               (map (fun y' => map (fun x' => f x' y') (zrange w)) (zrange h)))
            x y
  = f x y.
Proof.
  intros Hx Hy. unfold getpixel0. cbn [size rows].
  decide_tests. cbn [andb].
  rewrite (nth_map_in _ _ _ _ 0) by (rewrite length_zrange; lia).
  rewrite (nth_map_in _ _ _ _ 0) by (rewrite length_zrange; lia).
  now rewrite !nth_zrange, !Z2Nat.id by lia.
Qed.

Lemma getpixel0_outside (im : Image) (x y : Z) :
  ~ (0 <= x < fst (size im) /\ 0 <= y < snd (size im)) ->
  getpixel0 im x y = 0.
Proof.
  unfold getpixel0. destruct (size im) as [w h]. cbn [fst snd]. intros Hout.
  destruct ((0 <=? x) && (x <? w) && (0 <=? y) && (y <? h)) eqn:E;
    [|reflexivity].
  apply andb_true_iff in E. destruct E as [E E4].
  apply andb_true_iff in E. destruct E as [E E3].
  apply andb_true_iff in E. destruct E as [E1 E2].
  apply Z.leb_le in E1, E3. apply Z.ltb_lt in E2, E4. lia.
Qed.

Lemma getpixel0_transpose_ROTATE_270 (im : Image) (x y : Z) :
  0 <= x < snd (size im) -> 0 <= y < fst (size im) ->
  getpixel0 (transpose ROTATE_270 im) x y
  = getpixel0 im y (snd (size im) - 1 - x).
Proof.
  unfold transpose. destruct (size im) as [w h] eqn:Es. cbn [fst snd].
  intros Hx Hy.
  exact (getpixel0_tabulate h w (fun x' y' => getpixel0 im y' (h - 1 - x'))
           x y Hx Hy).
Qed.

Lemma getpixel0_transpose_FLIP_LEFT_RIGHT (im : Image) (x y : Z) :
  0 <= x < fst (size im) -> 0 <= y < snd (size im) ->
  getpixel0 (transpose FLIP_LEFT_RIGHT im) x y
  = getpixel0 im (fst (size im) - 1 - x) y.
Proof.
  unfold transpose. destruct (size im) as [w h] eqn:Es. cbn [fst snd].
  intros Hx Hy.
  exact (getpixel0_tabulate w h (fun x' y' => getpixel0 im (w - 1 - x') y')
           x y Hx Hy).
Qed.

Lemma getpixel0_rotated_bitmap (im : Image) (x y : Z) :
  getpixel0 (rotated_bitmap im) x y = getpixel0 (monochrome im) y x.
Proof.
  pose proof (size_rotated_bitmap im) as Hsz.
  destruct (size im) as [w h] eqn:Es. cbn [fst snd] in Hsz.
  assert (Hm : size (monochrome im) = (w, h))
    by (now rewrite size_monochrome).
  destruct (Z.leb_spec 0 x), (Z.ltb_spec x h),
           (Z.leb_spec 0 y), (Z.ltb_spec y w);
    try (rewrite (getpixel0_outside (rotated_bitmap im)),
                 (getpixel0_outside (monochrome im));
         [reflexivity | rewrite Hm | rewrite Hsz]; cbn [fst snd]; lia).
  unfold rotated_bitmap.
  assert (Hr : size (transpose ROTATE_270 (monochrome im)) = (h, w))
    by (unfold transpose; now rewrite Hm).
  rewrite getpixel0_transpose_FLIP_LEFT_RIGHT
    by (rewrite Hr; cbn [fst snd]; lia).
  rewrite Hr. cbn [fst snd].
  rewrite getpixel0_transpose_ROTATE_270
    by (rewrite Hm; cbn [fst snd]; lia).
  rewrite Hm. cbn [fst snd]. f_equal. lia.
Qed.

(** X6 (the rotation and the mirror make a transposition): the bitmap the
    column script slices, [im.transpose(ROTATE_270)] then
    [.transpose(FLIP_LEFT_RIGHT)] of the monochrome image, has at every
    position [(x, y)] the monochrome pixel at [(y, x)], inside the image
    and outside it: its rows are the columns of the image, top pixel
    first, and its size is the size of the image with width and height
    exchanged. *)
Theorem X6_rotated_bitmap_is_transposed (im : Image) :
  size (rotated_bitmap im) = (snd (size im), fst (size im)) /\
  forall x y,
    getpixel0 (rotated_bitmap im) x y = getpixel0 (monochrome im) y x.
Proof.
  split; [apply size_rotated_bitmap | apply getpixel0_rotated_bitmap].
Qed.

Lemma mod_strip_mod_8 (x lh : Z) :
  0 < lh -> (x mod (lh * 8)) mod 8 = x mod 8.
Proof.
  intros Hlh.
  rewrite (Z.mod_eq x (lh * 8)) by lia.
  replace (x - lh * 8 * (x / (lh * 8)))
    with (x + (- lh * (x / (lh * 8))) * 8) by lia.
  apply Z.mod_add. lia.
Qed.

(** The blobs of [_to_column_format], pixel by pixel. *)
Lemma to_column_format_bit (im : Image) (lh x y : Z) :
  1 <= lh ->
  0 <= x < fst (size im) -> 0 <= y < snd (size im) ->
  exists blobs : list (list Z),
    ColumnFormat._to_column_format im (lh * 8) = Ok blobs /\
    Z.of_nat (length blobs) = strip_count (fst (size im)) (lh * 8) /\
    (forall blob, In blob blobs ->
                  Z.of_nat (length blob) = snd (size im) * lh) /\
    Z.testbit
      (nth (Z.to_nat (y * lh + (x mod (lh * 8)) / 8))
           (nth (Z.to_nat (x / (lh * 8))) blobs []) 0)
      (7 - x mod 8)
    = negb (getpixel0 im x y =? 0).
Proof.
  intros Hlh Hx Hy.
  assert (Hsw : 0 < lh * 8) by lia.
  pose proof (strip_count_bounds (fst (size im)) (lh * 8) Hsw) as Hn.
  assert (Hk : 0 <= x / (lh * 8) < strip_count (fst (size im)) (lh * 8)).
  { split; [apply Z.div_pos; lia|].
    apply Z.div_lt_upper_bound; lia. }
  assert (Hwb : (lh * 8 + 7) / 8 = lh)
    by (symmetry; apply (Z.div_unique _ _ lh 7); lia).
  pose proof (Z.mod_pos_bound x (lh * 8) Hsw) as Hxm.
  eexists. split; [apply to_column_format_spec; exact Hsw|].
  split; [rewrite length_map, length_zrange; lia|].
  split.
  { intros blob Hin. apply in_map_iff in Hin. destruct Hin as [k [<- _]].
    rewrite length_tobytes, size_transform_EXTENT. cbn [fst snd].
    rewrite Hwb, Nat2Z.inj_mul, !Z2Nat.id by lia. reflexivity. }
  rewrite (nth_map_in _ _ _ _ 0) by (rewrite length_zrange; lia).
  rewrite nth_zrange, Z2Nat.id by lia.
  set (k := x / (lh * 8)) in *.
  set (T := transform_EXTENT (lh * 8, snd (size im))
              (k * (lh * 8), 0, k * (lh * 8) + lh * 8, snd (size im)) im).
  assert (HT : size T = (lh * 8, snd (size im)))
    by apply size_transform_EXTENT.
  pose proof (tobytes_bit T (x mod (lh * 8)) y) as Hbit.
  rewrite HT in Hbit. cbn [fst snd] in Hbit. rewrite Hwb in Hbit.
  rewrite mod_strip_mod_8 in Hbit by lia.
  rewrite Hbit by lia. clear Hbit.
  replace (x mod (lh * 8) <? lh * 8) with true
    by (symmetry; apply Z.ltb_lt; lia).
  do 2 f_equal. subst T. unfold transform_EXTENT.
  rewrite (getpixel0_tabulate (lh * 8) (snd (size im))
             (fun x' y' =>
                getpixel0 im
                  (k * (lh * 8)
                   + (2 * x' + 1) * (k * (lh * 8) + lh * 8 - k * (lh * 8))
                     / (2 * (lh * 8)))
                  (0 + (2 * y' + 1) * (snd (size im) - 0)
                       / (2 * snd (size im)))))
    by lia.
  rewrite extent_unit by lia.
  replace (snd (size im) - 0) with (0 + snd (size im) - 0) by lia.
  rewrite extent_unit by lia.
  pose proof (Z.div_mod x (lh * 8) ltac:(lia)) as Hdm. fold k in Hdm.
  f_equal; lia.
Qed.

(** X7 (reading a pixel back from the blobs): for a strip width
    [line_height * 8] with [line_height >= 1], [_to_column_format] returns
    and every pixel [(x, y)] of the image can be read back: it is in blob
    [x / strip_width], at byte [y * line_height + (x mod strip_width) / 8],
    in bit [7 - x mod 8], set exactly when the pixel is not 0. *)
Theorem X7_column_blobs_hold_every_pixel (im : Image) (line_height x y : Z)
    (Hlh : 1 <= line_height)
    (Hx : 0 <= x < fst (size im)) (Hy : 0 <= y < snd (size im)) :
  exists blobs : list (list Z),
    ColumnFormat._to_column_format im (line_height * 8) = Ok blobs /\
    Z.testbit
      (nth (Z.to_nat (y * line_height + (x mod (line_height * 8)) / 8))
           (nth (Z.to_nat (x / (line_height * 8))) blobs []) 0)
      (7 - x mod 8)
    = negb (getpixel0 im x y =? 0).
Proof.
  destruct (to_column_format_bit im line_height x y Hlh Hx Hy)
    as (blobs & Hrun & _ & _ & Hbit).
  exists blobs. split; assumption.
Qed.

Lemma X7_column_blobs_hold_every_pixel_witness :
  exists blobs : list (list Z),
    ColumnFormat._to_column_format sample_3x2 (1 * 8) = Ok blobs /\
    Z.testbit
      (nth (Z.to_nat (1 * 1 + (2 mod (1 * 8)) / 8))
           (nth (Z.to_nat (2 / (1 * 8))) blobs []) 0)
      (7 - 2 mod 8)
    = negb (getpixel0 sample_3x2 2 1 =? 0).
Proof.
  apply (X7_column_blobs_hold_every_pixel sample_3x2 1 2 1).
  - lia.
  - cbn [sample_3x2 size fst]. lia.
  - cbn [sample_3x2 size snd]. lia.
Defined.

(** X8 (where a pixel lands in the column-format stream): in a run on an
    image at most [2^23] wide, the monochrome pixel [(x, y)] is found in
    the strip command number [y / strip_width] (write [1 + y / strip_width]
    of the file), after the 5 header bytes, at byte
    [x * line_height + (y mod strip_width) / 8], in bit [7 - y mod 8]: one
    image column is [line_height] consecutive bytes of a strip, top pixel
    in the most significant bit. *)
Theorem X8_column_stream_holds_every_pixel (hdh hdv : bool) (im : Image)
    (x y : Z)
    (Hw : fst (size im) <= 8388608)
    (Hx : 0 <= x < fst (size im)) (Hy : 0 <= y < snd (size im)) :
  let line_height := if hdv then 3 else 1 in
  exists fp : list (list Z),
    ColumnFormat.main hdh hdv im = Ok fp /\
    Z.testbit
      (nth (Z.to_nat (5 + (x * line_height + (y mod (line_height * 8)) / 8)))
           (nth (Z.to_nat (1 + y / (line_height * 8))) fp []) 0)
      (7 - y mod 8)
    = negb (getpixel0 (monochrome im) x y =? 0).
Proof.
  cbv zeta. set (lh := if hdv then 3 else 1).
  assert (Hlh : 1 <= lh) by (subst lh; destruct hdv; lia).
  pose proof (size_rotated_bitmap im) as Hsz.
  destruct (to_column_format_bit (rotated_bitmap im) lh y x Hlh)
    as (blobs & Hrun & Hlen & Hblob & Hbit);
    [rewrite Hsz; exact Hy | rewrite Hsz; exact Hx |].
  rewrite Hsz in Hlen, Hblob. cbn [fst snd] in Hlen, Hblob.
  rewrite getpixel0_rotated_bitmap in Hbit.
  assert (Hsw : 0 < lh * 8) by lia.
  pose proof (strip_count_bounds (snd (size im)) (lh * 8) Hsw) as Hn.
  pose proof (Z.mod_pos_bound y (lh * 8) Hsw) as Hym.
  assert (Hk : 0 <= y / (lh * 8) < strip_count (snd (size im)) (lh * 8)).
  { split; [apply Z.div_pos; lia|]. apply Z.div_lt_upper_bound; lia. }
  assert (Hq : 0 <= (y mod (lh * 8)) / 8 < lh).
  { split; [apply Z.div_pos; lia|]. apply Z.div_lt_upper_bound; lia. }
  eexists. split.
  { rewrite (column_main_cases hdh hdv im blobs Hrun), in_range_true by lia.
    reflexivity. }
  replace (Z.to_nat (1 + y / (lh * 8))) with (S (Z.to_nat (y / (lh * 8))))
    by lia.
  change (nth (S ?i) ([[27; 51; 16]] ++ ?l) []) with (nth i l []).
  rewrite app_nth1 by (rewrite length_map; lia).
  rewrite (nth_map_in _ _ _ [] []) by lia.
  set (blob := nth (Z.to_nat (y / (lh * 8))) blobs []) in *.
  assert (Hb : Z.of_nat (length blob) = fst (size im) * lh)
    by (apply Hblob, nth_In; lia).
  replace (Z.to_nat (5 + (x * lh + (y mod (lh * 8)) / 8)))
    with (5 + Z.to_nat (x * lh + (y mod (lh * 8)) / 8))%nat by nia.
  change (([27; 42; column_flag hdh hdv] ++ encodeLE 2 (fst (size im)))
          ++ blob ++ [10])
    with ([27; 42; column_flag hdh hdv; fst (size im) mod 256;
           (fst (size im) / 256) mod 256] ++ blob ++ [10]).
  rewrite app_nth2 by (cbn [length]; lia).
  cbn [length].
  replace (5 + Z.to_nat (x * lh + (y mod (lh * 8)) / 8) - 5)%nat
    with (Z.to_nat (x * lh + (y mod (lh * 8)) / 8)) by lia.
  rewrite app_nth1 by nia.
  exact Hbit.
Qed.

Lemma X8_column_stream_holds_every_pixel_witness :
  let line_height := if false then 3 else 1 in
  exists fp : list (list Z),
    ColumnFormat.main true false sample_3x2 = Ok fp /\
    Z.testbit
      (nth (Z.to_nat (5 + (2 * line_height + (1 mod (line_height * 8)) / 8)))
           (nth (Z.to_nat (1 + 1 / (line_height * 8))) fp []) 0)
      (7 - 1 mod 8)
    = negb (getpixel0 (monochrome sample_3x2) 2 1 =? 0).
Proof.
  apply (X8_column_stream_holds_every_pixel true false sample_3x2 2 1).
  - cbn [sample_3x2 size fst]. lia.
  - cbn [sample_3x2 size fst]. lia.
  - cbn [sample_3x2 size snd]. lia.
Defined.

(** ** The size and the failures of the column-format run *)

Lemma to_column_format_lengths (im : Image) (lh : Z) :
  1 <= lh -> 0 <= fst (size im) ->
  exists blobs : list (list Z),
    ColumnFormat._to_column_format im (lh * 8) = Ok blobs /\
    Z.of_nat (length blobs) = strip_count (fst (size im)) (lh * 8) /\
    Forall (fun blob => length blob
                        = (Z.to_nat (snd (size im)) * Z.to_nat lh)%nat) blobs.
Proof.
  intros Hlh Hw.
  assert (Hsw : 0 < lh * 8) by lia.
  pose proof (strip_count_bounds (fst (size im)) (lh * 8) Hsw) as Hn.
  assert (Hwb : (lh * 8 + 7) / 8 = lh)
    by (symmetry; apply (Z.div_unique _ _ lh 7); lia).
  eexists. split; [apply to_column_format_spec; exact Hsw|].
  split; [rewrite length_map, length_zrange; nia|].
  apply Forall_map, Forall_forall. intros k _. cbn beta.
  rewrite length_tobytes, size_transform_EXTENT. cbn [fst snd].
  now rewrite Hwb.
Qed.

(** X9 (size of the column-format stream): a run on an image [w] wide and
    [h] high, with [0 <= w <= 2^23], makes [n + 2] writes, where
    [n = ceil(h / strip_width)] is the number of strips, and its stream is
    [5 + n * (6 + w * line_height)] bytes long: 3 and 2 bytes for the two
    line-spacing commands and, per strip, 5 header bytes,
    [w * line_height] data bytes and the line feed. *)
Theorem X9_column_stream_size (hdh hdv : bool) (im : Image)
    (Hw : 0 <= fst (size im) <= 8388608) (Hh : 0 <= snd (size im)) :
  let line_height := if hdv then 3 else 1 in
  let n := strip_count (snd (size im)) (line_height * 8) in
  exists fp : list (list Z),
    ColumnFormat.main hdh hdv im = Ok fp /\
    Z.of_nat (length fp) = n + 2 /\
    Z.of_nat (length (contents fp))
    = 5 + n * (6 + fst (size im) * line_height).
Proof.
  cbv zeta. set (lh := if hdv then 3 else 1).
  assert (Hlh : 1 <= lh) by (subst lh; destruct hdv; lia).
  pose proof (size_rotated_bitmap im) as Hsz.
  destruct (to_column_format_lengths (rotated_bitmap im) lh Hlh)
    as (blobs & Hrun & Hlen & Hblob); [rewrite Hsz; exact Hh|].
  rewrite Hsz in Hlen, Hblob. cbn [fst snd] in Hlen, Hblob.
  eexists. split.
  { rewrite (column_main_cases hdh hdv im blobs Hrun), in_range_true by lia.
    reflexivity. }
  split.
  { cbn [app length]. rewrite length_app, length_map. cbn [length]. lia. }
  unfold contents. rewrite !concat_app. cbn [concat app length].
  rewrite length_app.
  rewrite (length_concat_uniform
             (6 + Z.to_nat (fst (size im)) * Z.to_nat lh)).
  - rewrite length_map. cbn [length]. nia.
  - apply Forall_map. eapply Forall_impl; [|exact Hblob].
    intros blob Hb. cbn [length encodeLE app].
    rewrite length_app, Hb. cbn [length]. lia.
Qed.

Lemma X9_column_stream_size_witness :
  let line_height := if true then 3 else 1 in
  let n := strip_count (snd (size black_16x8)) (line_height * 8) in
  exists fp : list (list Z),
    ColumnFormat.main true true black_16x8 = Ok fp /\
    Z.of_nat (length fp) = n + 2 /\
    Z.of_nat (length (contents fp))
    = 5 + n * (6 + fst (size black_16x8) * line_height).
Proof.
  apply (X9_column_stream_size true true black_16x8).
  - cbn [black_16x8 size fst]. lia.
  - cbn [black_16x8 size snd]. lia.
Defined.

(** X10 (the column-format run refuses a width): when the width of the
    image is negative or above [2^23], the run raises [ValueError] while
    building the header, whatever the pixels and the settings, and
    returns no file: nothing has been written. *)
Theorem X10_column_main_rejects_width (hdh hdv : bool) (im : Image)
    (Hw : ~ 0 <= fst (size im) <= 8388608) :
  ColumnFormat.main hdh hdv im = Raise ValueError.
Proof.
  destruct (column_blobs_exist hdv im) as [blobs Hb].
  rewrite (column_main_cases hdh hdv im blobs Hb).
  destruct (Z.lt_ge_cases (fst (size im)) 0) as [Hneg|Hpos].
  - replace (0 <=? fst (size im)) with false
      by (symmetry; apply Z.leb_gt; lia).
    reflexivity.
  - replace (fst (size im) <=? 8388608) with false
      by (symmetry; apply Z.leb_gt; lia).
    now rewrite andb_false_r.
Qed.

Lemma X10_column_main_rejects_width_witness :
  ColumnFormat.main true true too_wide_image = Raise ValueError.
Proof.
  apply (X10_column_main_rejects_width true true too_wide_image).
  cbn [too_wide_image size fst]. lia.
Defined.

(** X12 (the width field wraps for a wide image): in a run on an image
    whose width [w] is between 65536 and [2^23], no error is raised and
    the width field of every strip command reads [w mod 65536], which is
    not the width. *)
Theorem X12_column_width_field_wraps (hdh hdv : bool) (im : Image)
    (Hw : 65536 <= fst (size im) <= 8388608) :
  exists fp : list (list Z),
    ColumnFormat.main hdh hdv im = Ok fp /\
    forall cmd, In cmd (strip_commands fp) ->
                width_field cmd = fst (size im) mod 65536 /\
                width_field cmd <> fst (size im).
Proof.
  destruct (column_blobs_exist hdv im) as [blobs Hb].
  eexists. split.
  { rewrite (column_main_cases hdh hdv im blobs Hb), in_range_true by lia.
    reflexivity. }
  intros cmd Hin. unfold strip_commands in Hin.
  cbn [app tl] in Hin. rewrite removelast_last in Hin.
  apply in_map_iff in Hin. destruct Hin as [blob [<- _]].
  unfold width_field. cbn [app skipn firstn encodeLE].
  change [fst (size im) mod 256; (fst (size im) / 256) mod 256]
    with (encodeLE 2 (fst (size im))).
  rewrite decodeLE_encodeLE_2 by lia.
  split; [reflexivity|].
  pose proof (Z.mod_pos_bound (fst (size im)) 65536 ltac:(lia)). lia.
Qed.

Lemma X12_column_width_field_wraps_witness :
  exists fp : list (list Z),
    ColumnFormat.main true true wide_image = Ok fp /\
    forall cmd, In cmd (strip_commands fp) ->
                width_field cmd = fst (size wide_image) mod 65536 /\
                width_field cmd <> fst (size wide_image).
Proof.
  apply (X12_column_width_field_wraps true true wide_image).
  cbn [wide_image size fst]. lia.
Defined.

(** ** The size, the header and the failures of the raster-format run *)

(** X13 (the raster-format run refuses a size): when the width in bytes
    or the height of the image is outside [0 .. 2^23], the run raises
    [ValueError] while building the header and returns no file: nothing
    has been written. *)
Theorem X13_raster_main_rejects_size (hdh hdv : bool) (im : Image)
    (Hsize : ~ (0 <= RasterFormat.width_bytes_of (fst (size im)) <= 8388608
                /\ 0 <= snd (size im) <= 8388608)) :
  RasterFormat.main hdh hdv im = Raise ValueError.
Proof.
  pose proof (raster_main_cases hdh hdv im) as Hm. cbv zeta in Hm.
  rewrite Hm.
  destruct ((0 <=? RasterFormat.width_bytes_of (fst (size im)))
            && (RasterFormat.width_bytes_of (fst (size im)) <=? 8388608)
            && ((0 <=? snd (size im)) && (snd (size im) <=? 8388608))) eqn:E;
    [|reflexivity].
  apply andb_true_iff in E. destruct E as [E1 E2].
  apply andb_true_iff in E1, E2. destruct E1 as [E1 E1'], E2 as [E2 E2'].
  apply Z.leb_le in E1, E1', E2, E2'. lia.
Qed.

Lemma X13_raster_main_rejects_size_witness :
  RasterFormat.main true true too_tall_image = Raise ValueError.
Proof.
  apply (X13_raster_main_rejects_size true true too_tall_image).
  cbn [too_tall_image size fst snd]. lia.
Defined.

(** X14 (size of the raster-format stream): a run on an image [w] wide
    and [h] high whose width in bytes [wb = ceil(w / 8)] and height are at
    most [2^23] makes a single write, of [8 + h * wb] bytes: the 8 header
    bytes and one packed row of [wb] bytes per image row. *)
Theorem X14_raster_stream_size (hdh hdv : bool) (im : Image)
    (Hw : 0 <= fst (size im))
    (Hwb : RasterFormat.width_bytes_of (fst (size im)) <= 8388608)
    (Hh : 0 <= snd (size im) <= 8388608) :
  exists cmd : list Z,
    RasterFormat.main hdh hdv im = Ok [cmd] /\
    Z.of_nat (length cmd)
    = 8 + snd (size im) * RasterFormat.width_bytes_of (fst (size im)).
Proof.
  pose proof (width_bytes_of_ceil (fst (size im))) as Hceil.
  eexists. split; [apply raster_main_accepts; assumption|].
  cbn [app encodeLE length].
  unfold RasterFormat._to_raster_format.
  change (convert_1 (invert (convert_L im))) with (monochrome im).
  rewrite length_tobytes, size_monochrome.
  unfold RasterFormat.width_bytes_of in *.
  rewrite !Nat2Z.inj_succ, Nat2Z.inj_mul, !Z2Nat.id by lia. lia.
Qed.

Lemma X14_raster_stream_size_witness :
  exists cmd : list Z,
    RasterFormat.main true true sample_3x2 = Ok [cmd] /\
    Z.of_nat (length cmd)
    = 8 + snd (size sample_3x2)
          * RasterFormat.width_bytes_of (fst (size sample_3x2)).
Proof.
  apply (X14_raster_stream_size true true sample_3x2).
  - cbn [sample_3x2 size fst]. lia.
  - vm_compute. intros H. discriminate H.
  - cbn [sample_3x2 size snd]. lia.
Defined.

(** X15 (the raster header reads back as the size): in a run on an image
    whose width in bytes and height are below 65536, the single command
    is [GS 'v' '0'], the flag byte, two fields that read little-endian as
    the width in bytes [ceil(w / 8)] and the height, and then the payload
    of [_to_raster_format]. *)
Theorem X15_raster_header_reads_back (hdh hdv : bool) (im : Image)
    (Hw : 0 <= fst (size im))
    (Hwb : RasterFormat.width_bytes_of (fst (size im)) < 65536)
    (Hh : 0 <= snd (size im) < 65536) :
  exists cmd : list Z,
    RasterFormat.main hdh hdv im = Ok [cmd] /\
    firstn 4 cmd = [29; 118; 48; raster_flag hdh hdv] /\
    decodeLE (firstn 2 (skipn 4 cmd))
    = RasterFormat.width_bytes_of (fst (size im)) /\
    decodeLE (firstn 2 (skipn 6 cmd)) = snd (size im) /\
    skipn 8 cmd = RasterFormat._to_raster_format im.
Proof.
  pose proof (width_bytes_of_ceil (fst (size im))) as Hceil.
  eexists. split; [apply raster_main_accepts; lia|].
  cbn [app encodeLE firstn skipn].
  split; [reflexivity|].
  split.
  - change [RasterFormat.width_bytes_of (fst (size im)) mod 256;
            (RasterFormat.width_bytes_of (fst (size im)) / 256) mod 256]
      with (encodeLE 2 (RasterFormat.width_bytes_of (fst (size im)))).
    rewrite decodeLE_encodeLE_2 by lia. apply Z.mod_small. lia.
  - split; [|reflexivity].
    change [snd (size im) mod 256; (snd (size im) / 256) mod 256]
      with (encodeLE 2 (snd (size im))).
    rewrite decodeLE_encodeLE_2 by lia. apply Z.mod_small. lia.
Qed.

Lemma X15_raster_header_reads_back_witness :
  exists cmd : list Z,
    RasterFormat.main true false sample_3x2 = Ok [cmd] /\
    firstn 4 cmd = [29; 118; 48; raster_flag true false] /\
    decodeLE (firstn 2 (skipn 4 cmd))
    = RasterFormat.width_bytes_of (fst (size sample_3x2)) /\
    decodeLE (firstn 2 (skipn 6 cmd)) = snd (size sample_3x2) /\
    skipn 8 cmd = RasterFormat._to_raster_format sample_3x2.
Proof.
  apply (X15_raster_header_reads_back true false sample_3x2).
  - cbn [sample_3x2 size fst]. lia.
  - reflexivity.
  - cbn [sample_3x2 size snd]. lia.
Defined.

(** X16 (the height field wraps for a tall image): in a run on an image
    whose height [h] is between 65536 and [2^23], no error is raised, the
    payload still holds all [h] rows, and the height field of the header
    reads [h mod 65536], which is not the height. *)
Theorem X16_raster_height_field_wraps (hdh hdv : bool) (im : Image)
    (Hw : 0 <= fst (size im))
    (Hwb : RasterFormat.width_bytes_of (fst (size im)) <= 8388608)
    (Hh : 65536 <= snd (size im) <= 8388608) :
  exists cmd : list Z,
    RasterFormat.main hdh hdv im = Ok [cmd] /\
    decodeLE (firstn 2 (skipn 6 cmd)) = snd (size im) mod 65536 /\
    decodeLE (firstn 2 (skipn 6 cmd)) <> snd (size im) /\
    Z.of_nat (length (skipn 8 cmd))
    = snd (size im) * RasterFormat.width_bytes_of (fst (size im)).
Proof.
  pose proof (width_bytes_of_ceil (fst (size im))) as Hceil.
  eexists. split; [apply raster_main_accepts; lia|].
  cbn [app encodeLE firstn skipn].
  change [snd (size im) mod 256; (snd (size im) / 256) mod 256]
    with (encodeLE 2 (snd (size im))).
  rewrite decodeLE_encodeLE_2 by lia.
  split; [reflexivity|].
  split.
  { pose proof (Z.mod_pos_bound (snd (size im)) 65536 ltac:(lia)). lia. }
  unfold RasterFormat._to_raster_format.
  change (convert_1 (invert (convert_L im))) with (monochrome im).
  rewrite length_tobytes, size_monochrome.
  unfold RasterFormat.width_bytes_of in *.
  rewrite Nat2Z.inj_mul, !Z2Nat.id by lia. reflexivity.
Qed.

Lemma X16_raster_height_field_wraps_witness :
  exists cmd : list Z,
    RasterFormat.main true true tall_image = Ok [cmd] /\
    decodeLE (firstn 2 (skipn 6 cmd))
    = snd (size tall_image) mod 65536 /\
    decodeLE (firstn 2 (skipn 6 cmd)) <> snd (size tall_image) /\
    Z.of_nat (length (skipn 8 cmd))
    = snd (size tall_image)
      * RasterFormat.width_bytes_of (fst (size tall_image)).
Proof.
  apply (X16_raster_height_field_wraps true true tall_image).
  - cbn [tall_image size fst]. lia.
  - cbn [tall_image size fst]. vm_compute. intros H. discriminate H.
  - cbn [tall_image size snd]. lia.
Defined.
